(** * Mergington High School API: account store and activity roster

    A shallow embedding of [src/app.py].  The two module-level dictionaries
    [users] and [activities] form the state of the program; every endpoint
    is a computation in a state-and-exception monad over that state.  A
    Python [raise] keeps whatever mutation happened before it, and so does
    [raise] below: that an endpoint which fails leaves the stores untouched
    is a theorem about each body, not a property of the monad.

    In the source text the request models and the account endpoints stand
    between the opening brace of [activities] and its first entry.  The
    embedding reads the nine entries as the dictionary and the classes and
    functions as the module-level definitions they are registered as. *)

From stdpp Require Import gmap strings list fin_maps.
From Stdlib Require Import ZArith Ascii.

Local Open Scope Z_scope.

(** ** Data model *)

(** The pydantic request models. *)
Module UserRegister.
Record t := mk { email : string; name : string; password : string }.
End UserRegister.

Module UserLogin.
Record t := mk { email : string; password : string }.
End UserLogin.

Module UserProfile.
(** Both fields are [Optional[str] = None]. *)
Record t := mk { name : option string; bio : option string }.
End UserProfile.

(** The nested dictionary [{"name": ..., "bio": ...}] of a stored user. *)
Module Profile.
Record t := mk { name : string; bio : string }.
Definition set_name (n : string) (p : t) : t := mk n (bio p).
Definition set_bio (b : string) (p : t) : t := mk (name p) b.
End Profile.

(** A stored user: [{"name": ..., "password": ..., "profile": {...}}]. *)
Module UserRecord.
Record t := mk { name : string; password : string; profile : Profile.t }.
Definition set_password (pw : string) (u : t) : t := mk (name u) pw (profile u).
Definition set_profile (p : Profile.t) (u : t) : t := mk (name u) (password u) p.
End UserRecord.

(** One entry of [activities]. *)
Module Activity.
Record t := mk {
  description : string;
  schedule : string;
  max_participants : Z;
  participants : list string
}.
Definition set_participants (ps : list string) (a : t) : t :=
  mk (description a) (schedule a) (max_participants a) ps.
End Activity.

(** The two module-level dictionaries. *)
Record State := mkState {
  users : gmap string (gmap string UserRecord.t);
  activities : gmap string Activity.t
}.

Definition set_users (us : gmap string (gmap string UserRecord.t)) (st : State) : State :=
  mkState us (activities st).
Definition set_activities (acts : gmap string Activity.t) (st : State) : State :=
  mkState (users st) acts.

(** What an endpoint can raise.  [HTTPException] is what the bodies raise
    themselves; [AttributeError] is what reading an attribute that a
    pydantic model does not declare raises. *)
Inductive Exception :=
  | HTTPException (status_code : Z) (detail : string)
  | AttributeError (type_name : string) (attr : string).

(** What an endpoint can return. *)
Inductive Response :=
  | Message (message : string)
  | MessageProfile (message : string) (profile : Profile.t)
  | ProfileOnly (profile : Profile.t)
  | Roster (acts : gmap string Activity.t)
  | Redirect (url : string).

(** ** The state-and-exception monad *)

Definition M (A : Type) : Type := State → (Exception + A) * State.

#[global] Instance M_ret : MRet M := λ A a st, (inr a, st).
#[global] Instance M_bind : MBind M := λ A B k m st,
  match m st with
  | (inl e, st') => (inl e, st')
  | (inr a, st') => k a st'
  end.

Definition raise {A} (e : Exception) : M A := λ st, (inl e, st).
Definition get_state : M State := λ st, (inr st, st).
Definition modify_state (f : State → State) : M unit := λ st, (inr tt, f st).

(** ** Python primitives used by the endpoints *)

(** [removeFirst x l] is [l.remove(x)] on a list that contains [x]: the first
    occurrence goes, the rest stays in place.  (Python raises [ValueError]
    when [x] is absent; the only call is guarded by a membership test.) *)
Fixpoint removeFirst (x : string) (l : list string) : list string :=
  match l with
  | [] => []
  | y :: l' => if decide (x = y) then l' else y :: removeFirst x l'
  end.

(** [str.title()] on ASCII text: the first letter of every run of letters is
    upper-cased, the others lower-cased.  Bytes above 127 are left as they
    are and end a run; the only strings that reach [title] are keys of
    [users]. *)
Definition is_upper (c : ascii) : bool :=
  let n := nat_of_ascii c in (Nat.leb 65 n && Nat.leb n 90)%bool.
Definition is_lower (c : ascii) : bool :=
  let n := nat_of_ascii c in (Nat.leb 97 n && Nat.leb n 122)%bool.
Definition to_upper (c : ascii) : ascii :=
  if is_lower c then ascii_of_nat (nat_of_ascii c - 32) else c.
Definition to_lower (c : ascii) : ascii :=
  if is_upper c then ascii_of_nat (nat_of_ascii c + 32) else c.

Fixpoint title_from (previous_is_cased : bool) (s : string) : string :=
  match s with
  | EmptyString => EmptyString
  | String c s' =>
      if is_lower c then
        String (if previous_is_cased then c else to_upper c) (title_from true s')
      else if is_upper c then
        String (if previous_is_cased then to_lower c else c) (title_from true s')
      else String c (title_from false s')
  end.
Definition title (s : string) : string := title_from false s.

(** Attribute access on a [UserLogin] object: its declared fields are
    [email] and [password]; any other name raises [AttributeError]. *)
Definition UserLogin_getattr (o : UserLogin.t) (attr : string) : M string :=
  if decide (attr = "email") then mret (UserLogin.email o)
  else if decide (attr = "password") then mret (UserLogin.password o)
  else raise (AttributeError "UserLogin" attr).

(** [users[user_type][email] = u], the insertion done by registration.
    The outer key is known to be present wherever this is used. *)
Definition insert_user (user_type email : string) (u : UserRecord.t) : M unit :=
  modify_state (λ st, set_users (alter (insert email u) user_type (users st)) st).

(** In-place mutation of the stored user dictionary through the alias
    [user = users[user_type].get(email)]: the object in the store changes. *)
Definition mutate_user (user_type email : string)
    (f : UserRecord.t → UserRecord.t) : M unit :=
  modify_state (λ st, set_users (alter (alter f email) user_type (users st)) st).

(** In-place mutation of the participants list through the alias
    [activity = activities[activity_name]]. *)
Definition mutate_participants (activity_name : string)
    (f : list string → list string) : M unit :=
  modify_state (λ st,
    set_activities
      (alter (λ a, Activity.set_participants (f (Activity.participants a)) a)
             activity_name (activities st)) st).

(** ** Initial state *)

Definition seed_activities : list (string * Activity.t) := [
  ("Chess Club",
   Activity.mk "Learn strategies and compete in chess tournaments"
     "Fridays, 3:30 PM - 5:00 PM" 12
     ["michael@mergington.edu"; "daniel@mergington.edu"]);
  ("Programming Class",
   Activity.mk "Learn programming fundamentals and build software projects"
     "Tuesdays and Thursdays, 3:30 PM - 4:30 PM" 20
     ["emma@mergington.edu"; "sophia@mergington.edu"]);
  ("Gym Class",
   Activity.mk "Physical education and sports activities"
     "Mondays, Wednesdays, Fridays, 2:00 PM - 3:00 PM" 30
     ["john@mergington.edu"; "olivia@mergington.edu"]);
  ("Soccer Team",
   Activity.mk "Join the school soccer team and compete in matches"
     "Tuesdays and Thursdays, 4:00 PM - 5:30 PM" 22
     ["liam@mergington.edu"; "noah@mergington.edu"]);
  ("Basketball Team",
   Activity.mk "Practice and play basketball with the school team"
     "Wednesdays and Fridays, 3:30 PM - 5:00 PM" 15
     ["ava@mergington.edu"; "mia@mergington.edu"]);
  ("Art Club",
   Activity.mk "Explore your creativity through painting and drawing"
     "Thursdays, 3:30 PM - 5:00 PM" 15
     ["amelia@mergington.edu"; "harper@mergington.edu"]);
  ("Drama Club",
   Activity.mk "Act, direct, and produce plays and performances"
     "Mondays and Wednesdays, 4:00 PM - 5:30 PM" 20
     ["ella@mergington.edu"; "scarlett@mergington.edu"]);
  ("Math Club",
   Activity.mk "Solve challenging problems and participate in math competitions"
     "Tuesdays, 3:30 PM - 4:30 PM" 10
     ["james@mergington.edu"; "benjamin@mergington.edu"]);
  ("Debate Team",
   Activity.mk "Develop public speaking and argumentation skills"
     "Fridays, 4:00 PM - 5:30 PM" 12
     ["charlotte@mergington.edu"; "henry@mergington.edu"])
].

Definition initial_users : gmap string (gmap string UserRecord.t) :=
  <["students" := ∅]> (<["clubs" := ∅]> ∅).

Definition initial_state : State :=
  mkState initial_users (list_to_map seed_activities).

(** ** Authentication and profile endpoints *)

Definition register_user (user_type : string) (user : UserRegister.t) : M Response :=
  st ← get_state;
  match users st !! user_type with
  | None => raise (HTTPException 400 "Invalid user type")
  | Some collection =>
      if decide (is_Some (collection !! UserRegister.email user)) then
        raise (HTTPException 400 "User already exists")
      else
        _ ← insert_user user_type (UserRegister.email user)
              (UserRecord.mk (UserRegister.name user) (UserRegister.password user)
                 (Profile.mk (UserRegister.name user) ""));
        mret (Message (title user_type +:+ " registered successfully"))
  end.

(** A stored user is a dictionary with three keys, hence truthy: [not user]
    holds exactly when [get] returned [None]. *)
Definition login_user (user_type : string) (creds : UserLogin.t) : M Response :=
  st ← get_state;
  match users st !! user_type with
  | None => raise (HTTPException 400 "Invalid user type")
  | Some collection =>
      match collection !! UserLogin.email creds with
      | None => raise (HTTPException 401 "Invalid credentials")
      | Some user =>
          if decide (UserRecord.password user ≠ UserLogin.password creds) then
            raise (HTTPException 401 "Invalid credentials")
          else
            mret (MessageProfile (title user_type +:+ " logged in")
                    (UserRecord.profile user))
      end
  end.

Definition get_profile (user_type email : string) : M Response :=
  st ← get_state;
  match users st !! user_type with
  | None => raise (HTTPException 400 "Invalid user type")
  | Some collection =>
      match collection !! email with
      | None => raise (HTTPException 404 "User not found")
      | Some user => mret (ProfileOnly (UserRecord.profile user))
      end
  end.

(** [user["profile"]], read back through the alias after the assignments. *)
Definition read_profile (user_type email : string) (fallback : Profile.t) : M Profile.t :=
  st ← get_state;
  mret (default fallback
          (UserRecord.profile <$> (users st !! user_type ≫= (.!! email)))).

Definition update_profile (user_type email : string) (profile : UserProfile.t)
    : M Response :=
  st ← get_state;
  match users st !! user_type with
  | None => raise (HTTPException 400 "Invalid user type")
  | Some collection =>
      match collection !! email with
      | None => raise (HTTPException 404 "User not found")
      | Some user =>
          _ ← match UserProfile.name profile with
              | Some n =>
                  mutate_user user_type email
                    (λ u, UserRecord.set_profile (Profile.set_name n (UserRecord.profile u)) u)
              | None => mret tt
              end;
          _ ← match UserProfile.bio profile with
              | Some b =>
                  mutate_user user_type email
                    (λ u, UserRecord.set_profile (Profile.set_bio b (UserRecord.profile u)) u)
              | None => mret tt
              end;
          p ← read_profile user_type email (UserRecord.profile user);
          mret (MessageProfile "Profile updated" p)
      end
  end.

(** [data] is a [UserLogin]; the new password is read from [data.name]. *)
Definition change_password (user_type email : string) (data : UserLogin.t)
    : M Response :=
  st ← get_state;
  match users st !! user_type with
  | None => raise (HTTPException 400 "Invalid user type")
  | Some collection =>
      match collection !! email with
      | None => raise (HTTPException 404 "User not found")
      | Some user =>
          if decide (UserRecord.password user ≠ UserLogin.password data) then
            raise (HTTPException 401 "Current password incorrect")
          else
            new_password ← UserLogin_getattr data "name";
            _ ← mutate_user user_type email (UserRecord.set_password new_password);
            mret (Message "Password changed")
      end
  end.

(** ** Activity endpoints *)

Definition root : M Response :=
  mret (Redirect "/static/index.html").

Definition get_activities : M Response :=
  st ← get_state;
  mret (Roster (activities st)).

Definition signup_for_activity (activity_name email : string) : M Response :=
  st ← get_state;
  match activities st !! activity_name with
  | None => raise (HTTPException 404 "Activity not found")
  | Some activity =>
      if decide (email ∈ Activity.participants activity) then
        raise (HTTPException 400 "Student is already signed up")
      else
        _ ← mutate_participants activity_name (λ ps, ps ++ [email]);
        mret (Message ("Signed up " +:+ email +:+ " for " +:+ activity_name))
  end.

Definition unregister_from_activity (activity_name email : string) : M Response :=
  st ← get_state;
  match activities st !! activity_name with
  | None => raise (HTTPException 404 "Activity not found")
  | Some activity =>
      if decide (email ∉ Activity.participants activity) then
        raise (HTTPException 400 "Student is not signed up for this activity")
      else
        _ ← mutate_participants activity_name (removeFirst email);
        mret (Message ("Unregistered " +:+ email +:+ " from " +:+ activity_name))
  end.

(** ** Requests and runs *)

(** One constructor per route; [handle] is the dispatch done by the router. *)
Inductive Request :=
  | PostRegister (user_type : string) (user : UserRegister.t)
  | PostLogin (user_type : string) (creds : UserLogin.t)
  | GetProfile (user_type email : string)
  | PutProfile (user_type email : string) (profile : UserProfile.t)
  | PutChangePassword (user_type email : string) (data : UserLogin.t)
  | GetRoot
  | GetActivities
  | PostSignup (activity_name email : string)
  | DeleteUnregister (activity_name email : string).

Definition handle (r : Request) : M Response :=
  match r with
  | PostRegister user_type user => register_user user_type user
  | PostLogin user_type creds => login_user user_type creds
  | GetProfile user_type email => get_profile user_type email
  | PutProfile user_type email profile => update_profile user_type email profile
  | PutChangePassword user_type email data => change_password user_type email data
  | GetRoot => root
  | GetActivities => get_activities
  | PostSignup activity_name email => signup_for_activity activity_name email
  | DeleteUnregister activity_name email => unregister_from_activity activity_name email
  end.

(** The state after serving the requests [rs] in order, whatever each one
    answered. *)
Fixpoint run (rs : list Request) (st : State) : State :=
  match rs with
  | [] => st
  | r :: rs' => run rs' (handle r st).2
  end.

Definition reachable (st : State) : Prop := ∃ rs, st = run rs initial_state.

(** The portion of the stores a request about one user looks at. *)
Definition find_user (st : State) (user_type email : string) : option UserRecord.t :=
  users st !! user_type ≫= (.!! email).

Definition valid_collection (user_type : string) : Prop :=
  user_type = "students" ∨ user_type = "clubs".

(** The keys of [users] are the two collections. *)
Definition users_wf (st : State) : Prop :=
  ∀ user_type, is_Some (users st !! user_type) ↔ valid_collection user_type.

(** No participants list holds an email twice. *)
Definition roster_wf (st : State) : Prop :=
  ∀ activity_name a,
    activities st !! activity_name = Some a → NoDup (Activity.participants a).

(** The profile that [update_profile] leaves behind: each field of the request
    that is not [None] replaces the stored one. *)
Definition merged_profile (profile : UserProfile.t) (p : Profile.t) : Profile.t :=
  Profile.mk (default (Profile.name p) (UserProfile.name profile))
             (default (Profile.bio p) (UserProfile.bio profile)).

(** What one request does to one participants list: nothing, an append of a
    new email, or the removal of a present one. *)
Inductive roster_change (ps : list string) : list string → Prop :=
  | rc_same : roster_change ps ps
  | rc_append email : email ∉ ps → roster_change ps (ps ++ [email])
  | rc_remove email : email ∈ ps → roster_change ps (removeFirst email ps).

(** ** Sample states *)

(** A roster in which the Math Club (capacity 10) is full. *)
Definition math_club_full : State :=
  run [PostSignup "Math Club" "s1@mergington.edu";
       PostSignup "Math Club" "s2@mergington.edu";
       PostSignup "Math Club" "s3@mergington.edu";
       PostSignup "Math Club" "s4@mergington.edu";
       PostSignup "Math Club" "s5@mergington.edu";
       PostSignup "Math Club" "s6@mergington.edu";
       PostSignup "Math Club" "s7@mergington.edu";
       PostSignup "Math Club" "s8@mergington.edu"] initial_state.

Definition math_club_full_entry : Activity.t :=
  Activity.mk "Solve challenging problems and participate in math competitions"
    "Tuesdays, 3:30 PM - 4:30 PM" 10
    ["james@mergington.edu"; "benjamin@mergington.edu";
     "s1@mergington.edu"; "s2@mergington.edu"; "s3@mergington.edu";
     "s4@mergington.edu"; "s5@mergington.edu"; "s6@mergington.edu";
     "s7@mergington.edu"; "s8@mergington.edu"].

(** One student, registered on the fresh stores. *)
Definition amy : UserRegister.t :=
  UserRegister.mk "amy@mergington.edu" "Amy" "old-secret".

Definition amy_registered : State :=
  run [PostRegister "students" amy] initial_state.

(** The requests [PUT /profile/...] for a list of targets and bodies. *)
Definition update_requests (ups : list (string * string * UserProfile.t))
    : list Request :=
  map (λ up, PutProfile up.1.1 up.1.2 up.2) ups.

(** The part of an activity that no endpoint assigns to. *)
Definition activity_static (a : Activity.t) : string * string * Z :=
  (Activity.description a, Activity.schedule a, Activity.max_participants a).

(** Requests served by the activity endpoints, as opposed to the account
    endpoints. *)
Definition is_activity_request (r : Request) : bool :=
  match r with
  | GetRoot | GetActivities | PostSignup _ _ | DeleteUnregister _ _ => true
  | _ => false
  end.

(** ** Sanity checks on the seed *)

Example title_students : title "students" = "Students".
Proof. reflexivity. Qed.

Example title_clubs : title "clubs" = "Clubs".
Proof. reflexivity. Qed.

Example signup_seed :
  (signup_for_activity "Chess Club" "new@m.edu" initial_state).1
  = inr (Message "Signed up new@m.edu for Chess Club").
Proof. vm_compute. reflexivity. Qed.

(** ** Lists: [removeFirst] *)

Section removeFirst.
Implicit Types (x y : string) (l : list string).

Lemma removeFirst_split x l :
  x ∈ l → ∃ l1 l2, l = l1 ++ x :: l2 ∧ (x ∉ l1) ∧ removeFirst x l = l1 ++ l2.
Proof.
  induction l as [|y l IH]; intros Hin; [by apply elem_of_nil in Hin|].
  simpl. destruct (decide (x = y)) as [->|Hne].
  - exists [], l. split_and!; [done|apply not_elem_of_nil|done].
  - apply elem_of_cons in Hin as [?|Hin]; [done|].
    destruct (IH Hin) as (l1 & l2 & -> & Hl1 & ->).
    exists (y :: l1), l2. split_and!; [done| |done].
    apply not_elem_of_cons. done.
Qed.

Lemma removeFirst_absent x l : x ∉ l → removeFirst x l = l.
Proof.
  induction l as [|y l IH]; [done|]. intros [Hne Hl]%not_elem_of_cons.
  simpl. rewrite decide_False by done. by rewrite IH.
Qed.

Lemma removeFirst_elem_of x y l : y ∈ removeFirst x l → y ∈ l.
Proof.
  induction l as [|z l IH]; simpl; [done|].
  destruct (decide (x = z)); [by apply list_elem_of_further|].
  intros [->|H]%elem_of_cons; [apply list_elem_of_here|].
  apply list_elem_of_further. auto.
Qed.

Lemma removeFirst_NoDup x l : NoDup l → NoDup (removeFirst x l).
Proof.
  induction 1 as [|y l Hy Hl IH]; simpl; [constructor|].
  destruct (decide (x = y)); [done|].
  constructor; [|done]. intros H. by apply Hy, (removeFirst_elem_of x).
Qed.

(** On a duplicate-free list the removed element is gone altogether. *)
Lemma removeFirst_NoDup_split x l :
  NoDup l → x ∈ l →
  ∃ l1 l2, l = l1 ++ x :: l2 ∧ (x ∉ l1) ∧ (x ∉ l2) ∧ removeFirst x l = l1 ++ l2.
Proof.
  intros Hnd Hin. destruct (removeFirst_split x l Hin) as (l1 & l2 & -> & H1 & Hr).
  exists l1, l2. split_and!; try done.
  apply NoDup_app in Hnd as (_ & _ & [H2 _]%NoDup_cons). done.
Qed.
End removeFirst.

(** ** Equations of the endpoints *)

Ltac unfold_M :=
  unfold insert_user, mutate_user, mutate_participants in *;
  unfold mbind, mret, M_bind, M_ret, raise, get_state, modify_state in *;
  simpl in *.

Section signup_equations.
Context (st : State) (activity_name email : string).

Lemma signup_unknown_activity :
  activities st !! activity_name = None →
  signup_for_activity activity_name email st
  = (inl (HTTPException 404 "Activity not found"), st).
Proof. intros H. unfold signup_for_activity. unfold_M. by rewrite H. Qed.

Lemma signup_present a :
  activities st !! activity_name = Some a →
  email ∈ Activity.participants a →
  signup_for_activity activity_name email st
  = (inl (HTTPException 400 "Student is already signed up"), st).
Proof.
  intros H Hin. unfold signup_for_activity. unfold_M. rewrite H.
  by rewrite decide_True.
Qed.

Lemma signup_fresh a :
  activities st !! activity_name = Some a →
  email ∉ Activity.participants a →
  signup_for_activity activity_name email st
  = (inr (Message ("Signed up " +:+ email +:+ " for " +:+ activity_name)),
     set_activities
       (<[activity_name :=
            Activity.set_participants (Activity.participants a ++ [email]) a]>
          (activities st)) st).
Proof.
  intros H Hin. unfold signup_for_activity. unfold_M. rewrite H.
  rewrite decide_False by done. simpl.
  by rewrite (alter_alt_Some _ _ _ _ H).
Qed.
End signup_equations.

Section unregister_equations.
Context (st : State) (activity_name email : string).

Lemma unregister_unknown_activity :
  activities st !! activity_name = None →
  unregister_from_activity activity_name email st
  = (inl (HTTPException 404 "Activity not found"), st).
Proof. intros H. unfold unregister_from_activity. unfold_M. by rewrite H. Qed.

Lemma unregister_absent a :
  activities st !! activity_name = Some a →
  email ∉ Activity.participants a →
  unregister_from_activity activity_name email st
  = (inl (HTTPException 400 "Student is not signed up for this activity"), st).
Proof.
  intros H Hin. unfold unregister_from_activity. unfold_M. rewrite H.
  by rewrite decide_True.
Qed.

Lemma unregister_present a :
  activities st !! activity_name = Some a →
  email ∈ Activity.participants a →
  unregister_from_activity activity_name email st
  = (inr (Message ("Unregistered " +:+ email +:+ " from " +:+ activity_name)),
     set_activities
       (<[activity_name :=
            Activity.set_participants
              (removeFirst email (Activity.participants a)) a]>
          (activities st)) st).
Proof.
  intros H Hin. unfold unregister_from_activity. unfold_M. rewrite H.
  rewrite decide_False by (intros Hn; by apply Hn). simpl.
  by rewrite (alter_alt_Some _ _ _ _ H).
Qed.
End unregister_equations.

Lemma set_users_same st : set_users (users st) st = st.
Proof. by destruct st. Qed.

(** Mutating one stored user in place rewrites exactly that entry. *)
Lemma alter_user (us : gmap string (gmap string UserRecord.t))
    (user_type email : string) collection user f :
  us !! user_type = Some collection →
  collection !! email = Some user →
  alter (alter f email) user_type us
  = <[user_type := <[email := f user]> collection]> us.
Proof.
  intros H Hu. rewrite (alter_alt_Some _ _ _ _ H).
  by rewrite (alter_alt_Some _ _ _ _ Hu).
Qed.

Section account_equations.
Context (st : State) (user_type : string).

Lemma register_invalid_type user :
  users st !! user_type = None →
  register_user user_type user st
  = (inl (HTTPException 400 "Invalid user type"), st).
Proof. intros H. unfold register_user. unfold_M. by rewrite H. Qed.

Lemma register_existing user collection :
  users st !! user_type = Some collection →
  is_Some (collection !! UserRegister.email user) →
  register_user user_type user st
  = (inl (HTTPException 400 "User already exists"), st).
Proof.
  intros H Hin. unfold register_user. unfold_M. rewrite H.
  by rewrite decide_True.
Qed.

Lemma register_fresh user collection :
  users st !! user_type = Some collection →
  collection !! UserRegister.email user = None →
  register_user user_type user st
  = (inr (Message (title user_type +:+ " registered successfully")),
     set_users
       (<[user_type :=
            <[UserRegister.email user :=
                UserRecord.mk (UserRegister.name user) (UserRegister.password user)
                  (Profile.mk (UserRegister.name user) "")]> collection]>
          (users st)) st).
Proof.
  intros H Hout. unfold register_user. unfold_M. rewrite H.
  rewrite decide_False by (rewrite Hout; by intros [? ?]). simpl.
  by rewrite (alter_alt_Some _ _ _ _ H).
Qed.

Lemma login_invalid_type creds :
  users st !! user_type = None →
  login_user user_type creds st
  = (inl (HTTPException 400 "Invalid user type"), st).
Proof. intros H. unfold login_user. unfold_M. by rewrite H. Qed.

Lemma login_unknown_email creds collection :
  users st !! user_type = Some collection →
  collection !! UserLogin.email creds = None →
  login_user user_type creds st
  = (inl (HTTPException 401 "Invalid credentials"), st).
Proof. intros H Hout. unfold login_user. unfold_M. by rewrite H, Hout. Qed.

Lemma login_wrong_password creds collection user :
  users st !! user_type = Some collection →
  collection !! UserLogin.email creds = Some user →
  UserRecord.password user ≠ UserLogin.password creds →
  login_user user_type creds st
  = (inl (HTTPException 401 "Invalid credentials"), st).
Proof.
  intros H Hu Hpw. unfold login_user. unfold_M. rewrite H, Hu.
  by rewrite decide_True.
Qed.

Lemma login_accepted creds collection user :
  users st !! user_type = Some collection →
  collection !! UserLogin.email creds = Some user →
  UserRecord.password user = UserLogin.password creds →
  login_user user_type creds st
  = (inr (MessageProfile (title user_type +:+ " logged in")
            (UserRecord.profile user)), st).
Proof.
  intros H Hu Hpw. unfold login_user. unfold_M. rewrite H, Hu.
  by rewrite decide_False by (intros Hn; by apply Hn).
Qed.

Lemma update_invalid_type email profile :
  users st !! user_type = None →
  update_profile user_type email profile st
  = (inl (HTTPException 400 "Invalid user type"), st).
Proof. intros H. unfold update_profile. unfold_M. by rewrite H. Qed.

Lemma update_unknown_email email profile collection :
  users st !! user_type = Some collection →
  collection !! email = None →
  update_profile user_type email profile st
  = (inl (HTTPException 404 "User not found"), st).
Proof. intros H Hout. unfold update_profile. unfold_M. by rewrite H, Hout. Qed.

Lemma update_found email profile collection user :
  users st !! user_type = Some collection →
  collection !! email = Some user →
  update_profile user_type email profile st
  = (inr (MessageProfile "Profile updated"
            (merged_profile profile (UserRecord.profile user))),
     set_users
       (<[user_type :=
            <[email := UserRecord.set_profile
                         (merged_profile profile (UserRecord.profile user)) user]>
              collection]> (users st)) st).
Proof.
  intros H Hu. unfold update_profile, read_profile. unfold_M. rewrite H, Hu.
  destruct profile as [[n|] [b|]], user as [un up [pn pb]]; simpl;
    unfold merged_profile, UserRecord.set_profile, Profile.set_name,
      Profile.set_bio; simpl.
  - rewrite (alter_user _ _ _ _ _ _ H Hu). simpl.
    erewrite alter_user by apply lookup_insert_eq.
    rewrite !lookup_insert_eq. simpl. rewrite !lookup_insert_eq. simpl.
    by rewrite !insert_insert_eq.
  - rewrite (alter_user _ _ _ _ _ _ H Hu). simpl.
    rewrite !lookup_insert_eq. simpl. by rewrite !lookup_insert_eq.
  - rewrite (alter_user _ _ _ _ _ _ H Hu). simpl.
    rewrite !lookup_insert_eq. simpl. by rewrite !lookup_insert_eq.
  - rewrite H. simpl. rewrite Hu. simpl.
    rewrite (insert_id collection), (insert_id (users st)) by done.
    by rewrite set_users_same.
Qed.

Lemma change_password_invalid_type email data :
  users st !! user_type = None →
  change_password user_type email data st
  = (inl (HTTPException 400 "Invalid user type"), st).
Proof. intros H. unfold change_password. unfold_M. by rewrite H. Qed.

Lemma change_password_unknown_email email data collection :
  users st !! user_type = Some collection →
  collection !! email = None →
  change_password user_type email data st
  = (inl (HTTPException 404 "User not found"), st).
Proof. intros H Hout. unfold change_password. unfold_M. by rewrite H, Hout. Qed.

Lemma change_password_wrong_current email data collection user :
  users st !! user_type = Some collection →
  collection !! email = Some user →
  UserRecord.password user ≠ UserLogin.password data →
  change_password user_type email data st
  = (inl (HTTPException 401 "Current password incorrect"), st).
Proof.
  intros H Hu Hpw. unfold change_password. unfold_M. rewrite H, Hu.
  by rewrite decide_True.
Qed.

(** [UserLogin] declares no [name]: reading [data.name] raises before the
    assignment to [user["password"]] is reached. *)
Lemma change_password_right_current email data collection user :
  users st !! user_type = Some collection →
  collection !! email = Some user →
  UserRecord.password user = UserLogin.password data →
  change_password user_type email data st
  = (inl (AttributeError "UserLogin" "name"), st).
Proof.
  intros H Hu Hpw. unfold change_password. unfold_M. rewrite H, Hu.
  by rewrite decide_False by (intros Hn; by apply Hn).
Qed.
End account_equations.

(** ** Invariants of the stores *)

Lemma initial_users_wf : users_wf initial_state.
Proof.
  intros c. unfold valid_collection, initial_state, initial_users. simpl.
  rewrite !lookup_insert_is_Some, lookup_empty.
  split.
  - intros [<- |[_ [<- |[_ [? ?]]]]]; [by left|by right|done].
  - intros [-> | ->]; [by left|]. right. split; [done|by left].
Qed.

Lemma initial_roster_wf : roster_wf initial_state.
Proof.
  intros n a H. apply elem_of_list_to_map_2 in H.
  unfold seed_activities in H.
  repeat (apply elem_of_cons in H as [[= -> ->]|H];
          [apply (bool_decide_unpack _); by vm_compute|]).
  by apply elem_of_nil in H.
Qed.

(** No endpoint adds or removes a key of [users]. *)
Lemma handle_users_keys r st c :
  is_Some (users (handle r st).2 !! c) ↔ is_Some (users st !! c).
Proof.
  destruct r; simpl;
    unfold register_user, login_user, get_profile, update_profile, read_profile,
      change_password, UserLogin_getattr, root, get_activities,
      signup_for_activity, unregister_from_activity;
    unfold_M; repeat case_match; simplify_eq; simpl;
    rewrite ?lookup_alter_is_Some; done.
Qed.

Lemma handle_users_wf r st : users_wf st → users_wf (handle r st).2.
Proof. intros Hwf c. rewrite handle_users_keys. apply Hwf. Qed.

(** No endpoint adds or removes a key of [activities]. *)
Lemma handle_activities_keys r st n :
  is_Some (activities (handle r st).2 !! n) ↔ is_Some (activities st !! n).
Proof.
  destruct r; simpl;
    unfold register_user, login_user, get_profile, update_profile, read_profile,
      change_password, UserLogin_getattr, root, get_activities,
      signup_for_activity, unregister_from_activity;
    unfold_M; repeat case_match; simplify_eq; simpl;
    rewrite ?lookup_alter_is_Some; done.
Qed.

Lemma handle_roster_change r st n a :
  activities st !! n = Some a →
  ∃ a', activities (handle r st).2 !! n = Some a'
        ∧ Activity.description a' = Activity.description a
        ∧ Activity.schedule a' = Activity.schedule a
        ∧ Activity.max_participants a' = Activity.max_participants a
        ∧ roster_change (Activity.participants a) (Activity.participants a').
Proof.
  intros Ha.
  assert (∃ a', activities st !! n = Some a'
        ∧ Activity.description a' = Activity.description a
        ∧ Activity.schedule a' = Activity.schedule a
        ∧ Activity.max_participants a' = Activity.max_participants a
        ∧ roster_change (Activity.participants a) (Activity.participants a'))
    as Hsame by (exists a; split_and!; try done; constructor).
  destruct r as [| | | | | | |m e|m e]; simpl;
    try (unfold register_user, login_user, get_profile, update_profile,
           read_profile, change_password, UserLogin_getattr, root,
           get_activities;
         unfold_M; repeat case_match; simpl; simplify_eq; exact Hsame).
  - destruct (activities st !! m) as [b|] eqn:Hm;
      [|by rewrite signup_unknown_activity].
    destruct (decide (e ∈ Activity.participants b)) as [Hin|Hout];
      [by erewrite signup_present|].
    erewrite signup_fresh by done. simpl.
    destruct (decide (m = n)) as [->|Hne].
    + rewrite lookup_insert_eq. simplify_eq. eexists. split; [done|].
      simpl. split_and!; try done. by constructor.
    + by rewrite lookup_insert_ne.
  - destruct (activities st !! m) as [b|] eqn:Hm;
      [|by rewrite unregister_unknown_activity].
    destruct (decide (e ∈ Activity.participants b)) as [Hin|Hout];
      [|by erewrite unregister_absent].
    erewrite unregister_present by done. simpl.
    destruct (decide (m = n)) as [->|Hne].
    + rewrite lookup_insert_eq. simplify_eq. eexists. split; [done|].
      simpl. split_and!; try done. by constructor.
    + by rewrite lookup_insert_ne.
Qed.

Lemma roster_change_NoDup ps ps' :
  roster_change ps ps' → NoDup ps → NoDup ps'.
Proof.
  destruct 1 as [|e He|e He]; intros Hnd; [done| |by apply removeFirst_NoDup].
  apply NoDup_app. split_and!; [done| |apply NoDup_singleton].
  intros x Hx ->%list_elem_of_singleton. done.
Qed.

Lemma handle_roster_wf r st : roster_wf st → roster_wf (handle r st).2.
Proof.
  intros Hwf n a' Ha'.
  destruct (activities st !! n) as [a|] eqn:Ha.
  - destruct (handle_roster_change r st n a Ha) as (b & Hb & _ & _ & _ & Hch).
    rewrite Ha' in Hb. simplify_eq. eapply roster_change_NoDup; eauto.
  - assert (is_Some (activities st !! n)) as [? ?]; [|congruence].
    apply (handle_activities_keys r). eauto.
Qed.

Lemma run_app rs1 rs2 st : run (rs1 ++ rs2) st = run rs2 (run rs1 st).
Proof. revert st. induction rs1 as [|r rs1 IH]; intros st; simpl; [done|apply IH]. Qed.

Lemma run_invariant (P : State → Prop) :
  (∀ r st, P st → P (handle r st).2) →
  ∀ rs st, P st → P (run rs st).
Proof.
  intros Hstep rs. induction rs as [|r rs IH]; intros st Hst; simpl; [done|].
  apply IH, Hstep, Hst.
Qed.

Lemma reachable_users_wf st : reachable st → users_wf st.
Proof.
  intros [rs ->]. apply run_invariant; [apply handle_users_wf|apply initial_users_wf].
Qed.

Lemma reachable_roster_wf st : reachable st → roster_wf st.
Proof.
  intros [rs ->]. apply run_invariant; [apply handle_roster_wf|apply initial_roster_wf].
Qed.

Lemma reachable_step r st : reachable st → reachable (handle r st).2.
Proof. intros [rs ->]. exists (rs ++ [r]). by rewrite run_app. Qed.

Lemma reachable_run rs st : reachable st → reachable (run rs st).
Proof. intros [rs0 ->]. exists (rs0 ++ rs). by rewrite run_app. Qed.

(** ** Order of the participants *)

Section filter_facts.
Context (P : string → Prop) `{!∀ x, Decision (P x)}.

Lemma filter_keeps_all (l : list string) :
  (∀ x, x ∈ l → P x) → filter P l = l.
Proof.
  induction l as [|y l IH]; intros Hall; [done|].
  rewrite filter_cons_True by (apply Hall; left).
  f_equal. apply IH. intros x Hx. apply Hall. by right.
Qed.

Lemma filter_drops_all (l : list string) :
  (∀ x, x ∈ l → ¬ P x) → filter P l = [].
Proof.
  induction l as [|y l IH]; intros Hall; [done|].
  rewrite filter_cons_False by (apply Hall; left).
  apply IH. intros x Hx. apply Hall. by right.
Qed.
End filter_facts.

(** The emails present both before and after a request come in the same
    order in the two lists. *)
Lemma roster_change_order ps ps' :
  roster_change ps ps' → NoDup ps →
  filter (.∈ ps') ps = filter (.∈ ps) ps'.
Proof.
  destruct 1 as [|e He|e He]; intros Hnd; [done| |].
  - rewrite filter_app.
    rewrite (filter_keeps_all (.∈ ps ++ [e]) ps)
      by (intros x Hx; apply elem_of_app; by left).
    rewrite (filter_keeps_all (.∈ ps) ps) by done.
    rewrite (filter_drops_all (.∈ ps) [e]); [by rewrite app_nil_r|].
    by intros x ->%list_elem_of_singleton.
  - destruct (removeFirst_NoDup_split e ps Hnd He) as (l1 & l2 & -> & H1 & H2 & ->).
    rewrite (filter_keeps_all _ (l1 ++ l2)).
    2:{ intros x Hx. apply elem_of_app in Hx. apply elem_of_app.
        destruct Hx; [by left|right; by right]. }
    rewrite filter_app, filter_cons_False.
    2:{ rewrite elem_of_app. by intros [?|?]. }
    rewrite <- filter_app. apply filter_keeps_all. done.
Qed.

(** ** The activity roster *)

(** C1. Signing up never looks at [max_participants]: for an activity of the
    roster and an email that is not among its participants, the signup
    succeeds and the email is appended, whatever the capacity is; in
    particular a list that was already full ends up one over capacity. *)
Theorem signup_ignores_capacity st activity_name a email :
  activities st !! activity_name = Some a →
  email ∉ Activity.participants a →
  ∃ st',
    signup_for_activity activity_name email st
    = (inr (Message ("Signed up " +:+ email +:+ " for " +:+ activity_name)), st')
    ∧ activities st' !! activity_name
      = Some (Activity.mk (Activity.description a) (Activity.schedule a)
                (Activity.max_participants a)
                (Activity.participants a ++ [email]))
    ∧ (Activity.max_participants a ≤ Z.of_nat (length (Activity.participants a)) →
       Activity.max_participants a
       < Z.of_nat (length (Activity.participants a ++ [email]))).
Proof.
  intros Ha Hout. eexists. split; [by apply signup_fresh|].
  simpl. rewrite lookup_insert_eq. split; [done|].
  rewrite length_app. simpl. lia.
Qed.

Lemma signup_ignores_capacity_witness :
  ∃ st',
    signup_for_activity "Math Club" "s9@mergington.edu" math_club_full
    = (inr (Message "Signed up s9@mergington.edu for Math Club"), st')
    ∧ activities st' !! "Math Club"
      = Some (Activity.mk
                "Solve challenging problems and participate in math competitions"
                "Tuesdays, 3:30 PM - 4:30 PM" 10
                (Activity.participants math_club_full_entry
                   ++ ["s9@mergington.edu"]))
    ∧ 10 < Z.of_nat (length (Activity.participants math_club_full_entry
                               ++ ["s9@mergington.edu"])).
Proof.
  destruct (signup_ignores_capacity math_club_full "Math Club"
              math_club_full_entry "s9@mergington.edu")
    as (st' & Hrun & Hentry & Hfull).
  - vm_compute. reflexivity.
  - apply (bool_decide_unpack _). vm_compute. exact I.
  - exists st'. split; [exact Hrun|]. split; [exact Hentry|].
    apply Hfull. vm_compute. discriminate.
Defined.

(** C2. Signing up for an unknown activity fails with 404 "Activity not
    found"; signing up an email that is already among the participants fails
    with 400 "Student is already signed up"; otherwise the email is appended
    at the end of that activity's participants and the answer is the message
    "Signed up {email} for {activity_name}". *)
Theorem signup_spec st activity_name email :
  (activities st !! activity_name = None →
   signup_for_activity activity_name email st
   = (inl (HTTPException 404 "Activity not found"), st))
  ∧ (∀ a, activities st !! activity_name = Some a →
       email ∈ Activity.participants a →
       signup_for_activity activity_name email st
       = (inl (HTTPException 400 "Student is already signed up"), st))
  ∧ (∀ a, activities st !! activity_name = Some a →
       email ∉ Activity.participants a →
       signup_for_activity activity_name email st
       = (inr (Message ("Signed up " +:+ email +:+ " for " +:+ activity_name)),
          mkState (users st)
            (<[activity_name :=
                 Activity.mk (Activity.description a) (Activity.schedule a)
                   (Activity.max_participants a)
                   (Activity.participants a ++ [email])]> (activities st)))).
Proof.
  split_and!.
  - apply signup_unknown_activity.
  - apply signup_present.
  - intros a Ha Hout. by rewrite (signup_fresh _ _ _ a).
Qed.

Lemma signup_spec_witness :
  signup_for_activity "Knitting" "new@m.edu" initial_state
  = (inl (HTTPException 404 "Activity not found"), initial_state)
  ∧ signup_for_activity "Chess Club" "daniel@mergington.edu" initial_state
    = (inl (HTTPException 400 "Student is already signed up"), initial_state)
  ∧ signup_for_activity "Chess Club" "new@m.edu" initial_state
    = (inr (Message "Signed up new@m.edu for Chess Club"),
       mkState (users initial_state)
         (<["Chess Club" :=
              Activity.mk "Learn strategies and compete in chess tournaments"
                "Fridays, 3:30 PM - 5:00 PM" 12
                ["michael@mergington.edu"; "daniel@mergington.edu"; "new@m.edu"]]>
            (activities initial_state))).
Proof.
  split_and!.
  - apply (proj1 (signup_spec initial_state "Knitting" "new@m.edu")).
    vm_compute. reflexivity.
  - apply (proj1 (proj2 (signup_spec initial_state "Chess Club"
                           "daniel@mergington.edu"))
             (Activity.mk "Learn strategies and compete in chess tournaments"
                "Fridays, 3:30 PM - 5:00 PM" 12
                ["michael@mergington.edu"; "daniel@mergington.edu"])).
    + vm_compute. reflexivity.
    + apply (bool_decide_unpack _). vm_compute. exact I.
  - apply (proj2 (proj2 (signup_spec initial_state "Chess Club" "new@m.edu"))
             (Activity.mk "Learn strategies and compete in chess tournaments"
                "Fridays, 3:30 PM - 5:00 PM" 12
                ["michael@mergington.edu"; "daniel@mergington.edu"])).
    + vm_compute. reflexivity.
    + apply (bool_decide_unpack _). vm_compute. exact I.
Defined.

(** C3. Unregistering from an unknown activity fails with 404 "Activity not
    found"; unregistering an email that is not among the participants fails
    with 400 "Student is not signed up for this activity"; otherwise, in a
    reachable state, the one entry equal to the email is taken out of that
    activity's list, the entries before and after it stay as they are and in
    order, no other activity and no user changes, and the answer is the
    message "Unregistered {email} from {activity_name}". *)
Theorem unregister_spec st activity_name email :
  reachable st →
  (activities st !! activity_name = None →
   unregister_from_activity activity_name email st
   = (inl (HTTPException 404 "Activity not found"), st))
  ∧ (∀ a, activities st !! activity_name = Some a →
       email ∉ Activity.participants a →
       unregister_from_activity activity_name email st
       = (inl (HTTPException 400 "Student is not signed up for this activity"),
          st))
  ∧ (∀ a, activities st !! activity_name = Some a →
       email ∈ Activity.participants a →
       ∃ before after st',
         Activity.participants a = before ++ email :: after
         ∧ (email ∉ before) ∧ (email ∉ after)
         ∧ unregister_from_activity activity_name email st
           = (inr (Message ("Unregistered " +:+ email +:+ " from "
                            +:+ activity_name)), st')
         ∧ activities st' !! activity_name
           = Some (Activity.mk (Activity.description a) (Activity.schedule a)
                     (Activity.max_participants a) (before ++ after))
         ∧ (∀ other, other ≠ activity_name →
              activities st' !! other = activities st !! other)
         ∧ users st' = users st).
Proof.
  intros Hreach. split_and!.
  - apply unregister_unknown_activity.
  - apply unregister_absent.
  - intros a Ha Hin.
    destruct (removeFirst_NoDup_split email (Activity.participants a))
      as (l1 & l2 & Hps & H1 & H2 & Hrm); [|done|].
    { by apply (reachable_roster_wf st Hreach activity_name). }
    exists l1, l2. eexists. do 3 (split; [done|]).
    split; [by apply unregister_present|]. simpl. split_and!.
    + rewrite lookup_insert_eq. unfold Activity.set_participants.
      by rewrite Hrm.
    + intros other Hne. by rewrite lookup_insert_ne.
    + done.
Qed.

Lemma reachable_initial : reachable initial_state.
Proof. by exists []. Qed.

Lemma unregister_spec_witness :
  unregister_from_activity "Knitting" "new@m.edu" initial_state
  = (inl (HTTPException 404 "Activity not found"), initial_state)
  ∧ unregister_from_activity "Chess Club" "new@m.edu" initial_state
    = (inl (HTTPException 400 "Student is not signed up for this activity"),
       initial_state)
  ∧ ∃ before after st',
      ["michael@mergington.edu"; "daniel@mergington.edu"]
      = before ++ "michael@mergington.edu" :: after
      ∧ ("michael@mergington.edu" ∉ before)
      ∧ ("michael@mergington.edu" ∉ after)
      ∧ unregister_from_activity "Chess Club" "michael@mergington.edu"
          initial_state
        = (inr (Message "Unregistered michael@mergington.edu from Chess Club"),
           st')
      ∧ activities st' !! "Chess Club"
        = Some (Activity.mk "Learn strategies and compete in chess tournaments"
                  "Fridays, 3:30 PM - 5:00 PM" 12 (before ++ after))
      ∧ (∀ other, other ≠ "Chess Club" →
           activities st' !! other = activities initial_state !! other)
      ∧ users st' = users initial_state.
Proof.
  split_and!.
  - apply (proj1 (unregister_spec initial_state "Knitting" "new@m.edu"
                    reachable_initial)).
    vm_compute. reflexivity.
  - apply (proj1 (proj2 (unregister_spec initial_state "Chess Club" "new@m.edu"
                           reachable_initial))
             (Activity.mk "Learn strategies and compete in chess tournaments"
                "Fridays, 3:30 PM - 5:00 PM" 12
                ["michael@mergington.edu"; "daniel@mergington.edu"])).
    + vm_compute. reflexivity.
    + apply (bool_decide_unpack _). vm_compute. exact I.
  - apply (proj2 (proj2 (unregister_spec initial_state "Chess Club"
                           "michael@mergington.edu" reachable_initial))
             (Activity.mk "Learn strategies and compete in chess tournaments"
                "Fridays, 3:30 PM - 5:00 PM" 12
                ["michael@mergington.edu"; "daniel@mergington.edu"])).
    + vm_compute. reflexivity.
    + apply (bool_decide_unpack _). vm_compute. exact I.
Defined.

(** C8. In every state reached from the seed by serving requests, each
    participants list holds no email twice; and whatever request comes next,
    the activity is still there, its list still holds no email twice, and
    the emails present both before and after stand in the same order in the
    two lists. *)
Theorem participants_unique_and_ordered rs r activity_name a :
  activities (run rs initial_state) !! activity_name = Some a →
  NoDup (Activity.participants a)
  ∧ ∃ a',
      activities (handle r (run rs initial_state)).2 !! activity_name = Some a'
      ∧ NoDup (Activity.participants a')
      ∧ filter (.∈ Activity.participants a') (Activity.participants a)
        = filter (.∈ Activity.participants a) (Activity.participants a').
Proof.
  intros Ha.
  assert (NoDup (Activity.participants a)) as Hnd.
  { eapply (reachable_roster_wf (run rs initial_state)); [by eexists|done]. }
  split; [done|].
  destruct (handle_roster_change r _ _ _ Ha) as (a' & Ha' & _ & _ & _ & Hch).
  exists a'. split_and!; [done| |].
  - by apply (roster_change_NoDup _ _ Hch).
  - by apply roster_change_order.
Qed.

Lemma participants_unique_and_ordered_witness :
  NoDup ["michael@mergington.edu"; "daniel@mergington.edu"; "new@m.edu"]
  ∧ ∃ a',
      activities
        (handle (DeleteUnregister "Chess Club" "daniel@mergington.edu")
           (run [PostSignup "Chess Club" "new@m.edu"] initial_state)).2
        !! "Chess Club" = Some a'
      ∧ NoDup (Activity.participants a')
      ∧ filter (.∈ Activity.participants a')
          ["michael@mergington.edu"; "daniel@mergington.edu"; "new@m.edu"]
        = filter
            (.∈ ["michael@mergington.edu"; "daniel@mergington.edu"; "new@m.edu"])
            (Activity.participants a').
Proof.
  apply (participants_unique_and_ordered
           [PostSignup "Chess Club" "new@m.edu"]
           (DeleteUnregister "Chess Club" "daniel@mergington.edu")
           "Chess Club"
           (Activity.mk "Learn strategies and compete in chess tournaments"
              "Fridays, 3:30 PM - 5:00 PM" 12
              ["michael@mergington.edu"; "daniel@mergington.edu"; "new@m.edu"])).
  vm_compute. reflexivity.
Defined.

(** ** Failures leave the stores alone *)

(** C9. Whenever a request is answered by an exception, both stores are
    exactly as they were before the request. *)
Theorem failure_leaves_state r st e st' :
  handle r st = (inl e, st') → st' = st.
Proof.
  destruct r; simpl;
    unfold register_user, login_user, get_profile, update_profile, read_profile,
      change_password, UserLogin_getattr, root, get_activities,
      signup_for_activity, unregister_from_activity;
    unfold_M; intros H; repeat case_match; simplify_eq; done.
Qed.

Lemma failure_leaves_state_witness :
  handle (PutChangePassword "students" "amy@mergington.edu"
            (UserLogin.mk "amy@mergington.edu" "guess")) amy_registered
  = (inl (HTTPException 401 "Current password incorrect"),
     (handle (PutChangePassword "students" "amy@mergington.edu"
                (UserLogin.mk "amy@mergington.edu" "guess")) amy_registered).2)
  ∧ (handle (PutChangePassword "students" "amy@mergington.edu"
               (UserLogin.mk "amy@mergington.edu" "guess")) amy_registered).2
    = amy_registered.
Proof.
  assert (handle (PutChangePassword "students" "amy@mergington.edu"
                    (UserLogin.mk "amy@mergington.edu" "guess")) amy_registered
          = (inl (HTTPException 401 "Current password incorrect"),
             (handle (PutChangePassword "students" "amy@mergington.edu"
                        (UserLogin.mk "amy@mergington.edu" "guess"))
                amy_registered).2)) as Hfail.
  { vm_compute. reflexivity. }
  split; [exact Hfail|].
  exact (failure_leaves_state _ _ _ _ Hfail).
Defined.

(** ** The account store *)

Lemma find_user_Some st user_type email u :
  find_user st user_type email = Some u ↔
  ∃ collection,
    users st !! user_type = Some collection ∧ collection !! email = Some u.
Proof. unfold find_user. apply bind_Some. Qed.

Lemma find_user_in st user_type email collection :
  users st !! user_type = Some collection →
  find_user st user_type email = collection !! email.
Proof. intros H. unfold find_user. by rewrite H. Qed.

Lemma reachable_collection st user_type :
  reachable st → valid_collection user_type →
  ∃ collection, users st !! user_type = Some collection.
Proof. intros Hr Hv. by apply (reachable_users_wf st Hr user_type). Qed.

Lemma reachable_no_collection st user_type :
  reachable st → ¬ valid_collection user_type →
  users st !! user_type = None.
Proof.
  intros Hr Hv. apply eq_None_not_Some. intros H.
  by apply Hv, (reachable_users_wf st Hr user_type).
Qed.

(** Only registration and profile update write to [users]. *)
Lemma handle_users_frame r st :
  match r with
  | PostRegister _ _ | PutProfile _ _ _ => True
  | _ => users (handle r st).2 = users st
  end.
Proof.
  destruct r; simpl; try done;
    unfold login_user, get_profile, change_password, UserLogin_getattr, root,
      get_activities, signup_for_activity, unregister_from_activity;
    unfold_M; repeat case_match; simplify_eq; done.
Qed.

(** Whatever the request, a stored user stays stored, under the same
    top-level name and with the same password. *)
Lemma handle_user_persists r st user_type email u :
  find_user st user_type email = Some u →
  ∃ u', find_user (handle r st).2 user_type email = Some u'
        ∧ UserRecord.name u' = UserRecord.name u
        ∧ UserRecord.password u' = UserRecord.password u.
Proof.
  intros Hu.
  assert (∀ st', users st' = users st →
            ∃ u', find_user st' user_type email = Some u'
                  ∧ UserRecord.name u' = UserRecord.name u
                  ∧ UserRecord.password u' = UserRecord.password u) as Hsame.
  { intros st' Heq. exists u. unfold find_user in *. by rewrite Heq. }
  destruct r as [c0 user| | |c0 e0 p| | | | |];
    try (apply Hsame;
         match goal with
         | |- users (handle ?r _).2 = _ => exact (handle_users_frame r st)
         end).
  - simpl. destruct (users st !! c0) as [coll0|] eqn:Hc0;
      [|rewrite register_invalid_type by done; by apply Hsame].
    destruct (coll0 !! UserRegister.email user) as [u0|] eqn:He0;
      [erewrite register_existing by eauto; by apply Hsame|].
    erewrite register_fresh by done. exists u.
    split; [|done]. unfold find_user in *. simpl.
    destruct (decide (c0 = user_type)) as [->|Hne];
      [|by rewrite lookup_insert_ne].
    rewrite lookup_insert_eq. rewrite Hc0 in Hu. simpl in *.
    rewrite lookup_insert_ne; [done|]. intros Heq. rewrite Heq in He0. congruence.
  - simpl. destruct (users st !! c0) as [coll0|] eqn:Hc0;
      [|rewrite update_invalid_type by done; by apply Hsame].
    destruct (coll0 !! e0) as [u0|] eqn:He0;
      [|erewrite update_unknown_email by done; by apply Hsame].
    erewrite update_found by done. unfold find_user in *. simpl.
    destruct (decide (c0 = user_type)) as [->|Hne];
      [|exists u; by rewrite lookup_insert_ne].
    rewrite lookup_insert_eq. rewrite Hc0 in Hu. simpl in *.
    destruct (decide (e0 = email)) as [->|Hne];
      [|exists u; by rewrite lookup_insert_ne].
    rewrite lookup_insert_eq. eexists. split; [done|]. simpl.
    by simplify_eq.
Qed.

Lemma run_user_persists rs st user_type email u :
  find_user st user_type email = Some u →
  ∃ u', find_user (run rs st) user_type email = Some u'
        ∧ UserRecord.name u' = UserRecord.name u
        ∧ UserRecord.password u' = UserRecord.password u.
Proof.
  revert st u. induction rs as [|r rs IH]; intros st u Hu; simpl; [by exists u|].
  destruct (handle_user_persists r st _ _ _ Hu) as (u1 & Hu1 & Hn1 & Hp1).
  destruct (IH _ _ Hu1) as (u2 & Hu2 & Hn2 & Hp2).
  exists u2. split; [done|]. split; congruence.
Qed.

Lemma register_taken st user_type user :
  is_Some (find_user st user_type (UserRegister.email user)) →
  register_user user_type user st
  = (inl (HTTPException 400 "User already exists"), st).
Proof.
  intros [u (collection & Hc & Hu)%find_user_Some].
  eapply register_existing; eauto.
Qed.

(** What a first registration leaves in the store. *)
Lemma register_free st user_type user :
  (∃ collection, users st !! user_type = Some collection) →
  find_user st user_type (UserRegister.email user) = None →
  ∃ st1,
    register_user user_type user st
    = (inr (Message (title user_type +:+ " registered successfully")), st1)
    ∧ find_user st1 user_type (UserRegister.email user)
      = Some (UserRecord.mk (UserRegister.name user) (UserRegister.password user)
                (Profile.mk (UserRegister.name user) ""))
    ∧ (∀ c e, (c, e) ≠ (user_type, UserRegister.email user) →
         find_user st1 c e = find_user st c e)
    ∧ activities st1 = activities st.
Proof.
  intros [collection Hc] Hnone. rewrite (find_user_in _ _ _ _ Hc) in Hnone.
  eexists. split; [by apply register_fresh|]. unfold find_user. simpl.
  split_and!; [by rewrite lookup_insert_eq; simpl; rewrite lookup_insert_eq| |done].
  intros c e Hne. destruct (decide (user_type = c)) as [<-|Hc'];
    [|by rewrite lookup_insert_ne].
  rewrite lookup_insert_eq, Hc. simpl. rewrite lookup_insert_ne; [done|].
  intros <-. done.
Qed.

(** C5. In a reachable state: a collection name other than "students" and
    "clubs" is refused with 400 "Invalid user type"; an email already in
    the collection is refused with 400 "User already exists"; otherwise the
    registration succeeds and stores the record with profile
    [{name: the given name, bio: ""}].  After that, registering the same
    email in the same collection is refused whatever happened in between,
    while registering it in the other collection depends on that other
    collection only. *)
Theorem register_spec st user_type user :
  reachable st →
  (¬ valid_collection user_type →
   register_user user_type user st
   = (inl (HTTPException 400 "Invalid user type"), st))
  ∧ (valid_collection user_type →
     is_Some (find_user st user_type (UserRegister.email user)) →
     register_user user_type user st
     = (inl (HTTPException 400 "User already exists"), st))
  ∧ (valid_collection user_type →
     find_user st user_type (UserRegister.email user) = None →
     ∃ st1,
       register_user user_type user st
       = (inr (Message (title user_type +:+ " registered successfully")), st1)
       ∧ find_user st1 user_type (UserRegister.email user)
         = Some (UserRecord.mk (UserRegister.name user)
                   (UserRegister.password user)
                   (Profile.mk (UserRegister.name user) ""))
       ∧ (∀ rs user',
            UserRegister.email user' = UserRegister.email user →
            register_user user_type user' (run rs st1)
            = (inl (HTTPException 400 "User already exists"), run rs st1))
       ∧ (∀ other user',
            valid_collection other → other ≠ user_type →
            UserRegister.email user' = UserRegister.email user →
            find_user st other (UserRegister.email user) = None →
            ∃ st2,
              register_user other user' st1
              = (inr (Message (title other +:+ " registered successfully")), st2)
              ∧ find_user st2 other (UserRegister.email user)
                = Some (UserRecord.mk (UserRegister.name user')
                          (UserRegister.password user')
                          (Profile.mk (UserRegister.name user') ""))
              ∧ find_user st2 user_type (UserRegister.email user)
                = Some (UserRecord.mk (UserRegister.name user)
                          (UserRegister.password user)
                          (Profile.mk (UserRegister.name user) "")))).
Proof.
  intros Hreach. split_and!.
  - intros Hinv. apply register_invalid_type.
    by apply reachable_no_collection.
  - intros _. apply register_taken.
  - intros Hvalid Hnone.
    destruct (register_free st user_type user) as (st1 & Hrun & Hrec & Hfr & _);
      [by apply reachable_collection|done|].
    exists st1. split_and!; [done|done| |].
    + intros rs user' Hmail. apply register_taken. rewrite Hmail.
      destruct (run_user_persists rs st1 _ _ _ Hrec) as (u' & Hu' & _).
      by exists u'.
    + intros other user' Hvo Hne Hmail Hother.
      assert (reachable st1) as Hreach1.
      { replace st1 with (handle (PostRegister user_type user) st).2
          by (simpl; by rewrite Hrun).
        by apply reachable_step. }
      destruct (register_free st1 other user') as (st2 & Hrun2 & Hrec2 & Hfr2 & _).
      { by apply reachable_collection. }
      { rewrite Hmail, Hfr; [done|]. intros ?. by simplify_eq. }
      exists st2. rewrite <- Hmail at 1. split_and!; [done|done|].
      rewrite Hfr2; [done|]. intros ?. by simplify_eq.
Qed.

Lemma register_spec_witness :
  register_user "teachers" amy initial_state
  = (inl (HTTPException 400 "Invalid user type"), initial_state)
  ∧ register_user "students" amy amy_registered
    = (inl (HTTPException 400 "User already exists"), amy_registered)
  ∧ ∃ st1,
      register_user "students" amy initial_state
      = (inr (Message "Students registered successfully"), st1)
      ∧ find_user st1 "students" "amy@mergington.edu"
        = Some (UserRecord.mk "Amy" "old-secret" (Profile.mk "Amy" ""))
      ∧ (∀ rs user',
           UserRegister.email user' = "amy@mergington.edu" →
           register_user "students" user' (run rs st1)
           = (inl (HTTPException 400 "User already exists"), run rs st1))
      ∧ (∀ other user',
           valid_collection other → other ≠ "students" →
           UserRegister.email user' = "amy@mergington.edu" →
           find_user initial_state other "amy@mergington.edu" = None →
           ∃ st2,
             register_user other user' st1
             = (inr (Message (title other +:+ " registered successfully")), st2)
             ∧ find_user st2 other "amy@mergington.edu"
               = Some (UserRecord.mk (UserRegister.name user')
                         (UserRegister.password user')
                         (Profile.mk (UserRegister.name user') ""))
             ∧ find_user st2 "students" "amy@mergington.edu"
               = Some (UserRecord.mk "Amy" "old-secret" (Profile.mk "Amy" ""))).
Proof.
  split_and!.
  - apply (proj1 (register_spec initial_state "teachers" amy reachable_initial)).
    unfold valid_collection. intros [H|H]; discriminate H.
  - apply (proj1 (proj2 (register_spec amy_registered "students" amy
                           (ex_intro _ [PostRegister "students" amy] eq_refl)))).
    + left. reflexivity.
    + vm_compute. eexists. reflexivity.
  - apply (proj2 (proj2 (register_spec initial_state "students" amy
                           reachable_initial))).
    + left. reflexivity.
    + vm_compute. reflexivity.
Defined.

(** C6. In a reachable state and for a collection "students" or "clubs":
    login succeeds exactly when the email is in the collection and the given
    password equals the stored one, and it then answers with the stored
    profile; an unknown email or a different password is refused with 401
    "Invalid credentials".  Login never changes the stores. *)
Theorem login_spec st user_type creds :
  reachable st →
  valid_collection user_type →
  (∀ resp st',
     login_user user_type creds st = (inr resp, st') ↔
     ∃ u, find_user st user_type (UserLogin.email creds) = Some u
          ∧ UserRecord.password u = UserLogin.password creds
          ∧ resp = MessageProfile (title user_type +:+ " logged in")
                     (UserRecord.profile u)
          ∧ st' = st)
  ∧ (find_user st user_type (UserLogin.email creds) = None →
     login_user user_type creds st
     = (inl (HTTPException 401 "Invalid credentials"), st))
  ∧ (∀ u, find_user st user_type (UserLogin.email creds) = Some u →
       UserRecord.password u ≠ UserLogin.password creds →
       login_user user_type creds st
       = (inl (HTTPException 401 "Invalid credentials"), st)).
Proof.
  intros Hreach Hvalid.
  destruct (reachable_collection st user_type Hreach Hvalid) as [collection Hc].
  rewrite (find_user_in _ _ _ _ Hc).
  split_and!.
  - intros resp st'. split.
    + destruct (collection !! UserLogin.email creds) as [u|] eqn:Hu;
        [|by erewrite login_unknown_email].
      destruct (decide (UserRecord.password u = UserLogin.password creds))
        as [Hpw|Hpw]; [|by erewrite login_wrong_password].
      erewrite login_accepted by done. intros [= <- <-]. by exists u.
    + intros (u & Hu & Hpw & -> & ->). by eapply login_accepted.
  - intros Hnone. by eapply login_unknown_email.
  - intros u Hu Hpw. by eapply login_wrong_password.
Qed.

Lemma login_spec_witness :
  login_user "students" (UserLogin.mk "amy@mergington.edu" "old-secret")
    amy_registered
  = (inr (MessageProfile "Students logged in" (Profile.mk "Amy" "")),
     amy_registered)
  ∧ login_user "students" (UserLogin.mk "bob@mergington.edu" "old-secret")
      amy_registered
    = (inl (HTTPException 401 "Invalid credentials"), amy_registered)
  ∧ login_user "students" (UserLogin.mk "amy@mergington.edu" "Old-secret")
      amy_registered
    = (inl (HTTPException 401 "Invalid credentials"), amy_registered).
Proof.
  assert (reachable amy_registered) as Hreach
    by exact (ex_intro _ [PostRegister "students" amy] eq_refl).
  assert (valid_collection "students") as Hvalid by (left; reflexivity).
  split_and!.
  - apply (proj1 (login_spec amy_registered "students"
                    (UserLogin.mk "amy@mergington.edu" "old-secret")
                    Hreach Hvalid)).
    exists (UserRecord.mk "Amy" "old-secret" (Profile.mk "Amy" "")).
    split_and!; vm_compute; reflexivity.
  - apply (proj1 (proj2 (login_spec amy_registered "students"
                           (UserLogin.mk "bob@mergington.edu" "old-secret")
                           Hreach Hvalid))).
    vm_compute. reflexivity.
  - apply (proj2 (proj2 (login_spec amy_registered "students"
                           (UserLogin.mk "amy@mergington.edu" "Old-secret")
                           Hreach Hvalid))
             (UserRecord.mk "Amy" "old-secret" (Profile.mk "Amy" ""))).
    + vm_compute. reflexivity.
    + simpl. discriminate.
Defined.

(** What a profile update does to the user it finds. *)
Lemma update_stored_user st user_type email u profile :
  find_user st user_type email = Some u →
  ∃ p' st',
    update_profile user_type email profile st
    = (inr (MessageProfile "Profile updated" p'), st')
    ∧ find_user st' user_type email
      = Some (UserRecord.mk (UserRecord.name u) (UserRecord.password u) p')
    ∧ (UserProfile.name profile = None →
       Profile.name p' = Profile.name (UserRecord.profile u))
    ∧ (UserProfile.bio profile = None →
       Profile.bio p' = Profile.bio (UserRecord.profile u))
    ∧ (∀ n, UserProfile.name profile = Some n → Profile.name p' = n)
    ∧ (∀ b, UserProfile.bio profile = Some b → Profile.bio p' = b)
    ∧ (∀ c e, (c, e) ≠ (user_type, email) →
         find_user st' c e = find_user st c e)
    ∧ activities st' = activities st.
Proof.
  intros (collection & Hc & Hu)%find_user_Some.
  eexists _, _. split; [by eapply update_found|].
  unfold find_user, merged_profile. simpl.
  split_and!.
  - rewrite lookup_insert_eq. simpl. by rewrite lookup_insert_eq.
  - by intros ->.
  - by intros ->.
  - by intros n ->.
  - by intros b ->.
  - intros c e Hne. destruct (decide (user_type = c)) as [<-|Hc'];
      [|by rewrite lookup_insert_ne].
    rewrite lookup_insert_eq, Hc. simpl. rewrite lookup_insert_ne; [done|].
    intros <-. done.
  - done.
Qed.

(** C7. For a stored user, a profile update answers with the updated
    profile and stores it: a field given in the request replaces the stored
    one, a field left out ([None]) keeps its stored value, so with only a
    bio given the profile's name is unchanged and with only a name given
    the bio is unchanged.  The top-level name, the password, every other
    user and the roster stay as they are. *)
Theorem update_profile_spec st user_type email u profile :
  find_user st user_type email = Some u →
  ∃ p' st',
    update_profile user_type email profile st
    = (inr (MessageProfile "Profile updated" p'), st')
    ∧ find_user st' user_type email
      = Some (UserRecord.mk (UserRecord.name u) (UserRecord.password u) p')
    ∧ (UserProfile.name profile = None →
       Profile.name p' = Profile.name (UserRecord.profile u))
    ∧ (UserProfile.bio profile = None →
       Profile.bio p' = Profile.bio (UserRecord.profile u))
    ∧ (∀ n, UserProfile.name profile = Some n → Profile.name p' = n)
    ∧ (∀ b, UserProfile.bio profile = Some b → Profile.bio p' = b)
    ∧ (∀ c e, (c, e) ≠ (user_type, email) →
         find_user st' c e = find_user st c e)
    ∧ activities st' = activities st.
Proof. apply update_stored_user. Qed.

Lemma update_profile_spec_witness :
  ∃ p' st',
    update_profile "students" "amy@mergington.edu"
      (UserProfile.mk None (Some "Chess player")) amy_registered
    = (inr (MessageProfile "Profile updated" p'), st')
    ∧ find_user st' "students" "amy@mergington.edu"
      = Some (UserRecord.mk "Amy" "old-secret" p')
    ∧ Profile.name p' = "Amy"
    ∧ Profile.bio p' = "Chess player".
Proof.
  destruct (update_profile_spec amy_registered "students" "amy@mergington.edu"
              (UserRecord.mk "Amy" "old-secret" (Profile.mk "Amy" ""))
              (UserProfile.mk None (Some "Chess player")))
    as (p' & st' & Hrun & Hrec & Hname & _ & _ & Hbio & _).
  - vm_compute. reflexivity.
  - exists p', st'. split; [exact Hrun|]. split; [exact Hrec|].
    split; [exact (Hname eq_refl)|exact (Hbio "Chess player" eq_refl)].
Defined.

Lemma register_success st user_type user resp st1 :
  register_user user_type user st = (inr resp, st1) →
  find_user st1 user_type (UserRegister.email user)
  = Some (UserRecord.mk (UserRegister.name user) (UserRegister.password user)
            (Profile.mk (UserRegister.name user) "")).
Proof.
  destruct (users st !! user_type) as [collection|] eqn:Hc;
    [|by rewrite register_invalid_type].
  destruct (collection !! UserRegister.email user) as [u|] eqn:Hu;
    [by erewrite register_existing|].
  erewrite register_fresh by done. intros [= _ <-].
  unfold find_user. simpl. rewrite lookup_insert_eq. simpl.
  by rewrite lookup_insert_eq.
Qed.

(** C10. After a successful registration, whatever profile updates are then
    served (for this user or any other), the stored top-level name is still
    the name given at registration; this holds also right after an update
    that sets the profile's name to something else. *)
Theorem update_profile_keeps_top_level_name st user_type user resp st1 ups :
  register_user user_type user st = (inr resp, st1) →
  (∃ u,
     find_user (run (update_requests ups) st1) user_type
       (UserRegister.email user) = Some u
     ∧ UserRecord.name u = UserRegister.name user)
  ∧ (∀ n bio, ∃ u,
       find_user
         (update_profile user_type (UserRegister.email user)
            (UserProfile.mk (Some n) bio) (run (update_requests ups) st1)).2
         user_type (UserRegister.email user) = Some u
       ∧ UserRecord.name u = UserRegister.name user
       ∧ Profile.name (UserRecord.profile u) = n).
Proof.
  intros Hreg%register_success.
  destruct (run_user_persists (update_requests ups) st1 _ _ _ Hreg)
    as (u & Hu & Hname & _).
  split; [by exists u|].
  intros n bio.
  destruct (update_stored_user _ _ _ _ (UserProfile.mk (Some n) bio) Hu)
    as (p' & st' & Hrun & Hrec & _ & _ & Hn & _).
  rewrite Hrun. simpl. eexists. split; [exact Hrec|]. simpl.
  split; [done|]. by apply Hn.
Qed.

Lemma update_profile_keeps_top_level_name_witness :
  (∃ u,
     find_user
       (run (update_requests
               [("students", "amy@mergington.edu",
                 UserProfile.mk (Some "Amelia") None);
                ("students", "amy@mergington.edu",
                 UserProfile.mk None (Some "Chess player"))])
          amy_registered)
       "students" "amy@mergington.edu" = Some u
     ∧ UserRecord.name u = "Amy")
  ∧ (∀ n bio, ∃ u,
       find_user
         (update_profile "students" "amy@mergington.edu"
            (UserProfile.mk (Some n) bio)
            (run (update_requests
                    [("students", "amy@mergington.edu",
                      UserProfile.mk (Some "Amelia") None);
                     ("students", "amy@mergington.edu",
                      UserProfile.mk None (Some "Chess player"))])
               amy_registered)).2
         "students" "amy@mergington.edu" = Some u
       ∧ UserRecord.name u = "Amy"
       ∧ Profile.name (UserRecord.profile u) = n).
Proof.
  apply (update_profile_keeps_top_level_name initial_state "students" amy
           (Message "Students registered successfully") amy_registered).
  vm_compute. reflexivity.
Defined.

(** ** Changing the password *)

(** C4. On the stores with one registered student: a wrong current password
    is refused with 401 "Current password incorrect"; the right current
    password does not lead to a confirmation either, because the new
    password is read from [data.name] and a [UserLogin] has no such
    attribute: the request ends in [AttributeError], and the stored password
    is still the old one, so a login with the old password succeeds. *)
Theorem change_password_raises :
  change_password "students" "amy@mergington.edu"
    (UserLogin.mk "amy@mergington.edu" "guess") amy_registered
  = (inl (HTTPException 401 "Current password incorrect"), amy_registered)
  ∧ change_password "students" "amy@mergington.edu"
      (UserLogin.mk "amy@mergington.edu" "old-secret") amy_registered
    = (inl (AttributeError "UserLogin" "name"), amy_registered)
  ∧ find_user amy_registered "students" "amy@mergington.edu"
    = Some (UserRecord.mk "Amy" "old-secret" (Profile.mk "Amy" ""))
  ∧ login_user "students" (UserLogin.mk "amy@mergington.edu" "old-secret")
      (change_password "students" "amy@mergington.edu"
         (UserLogin.mk "amy@mergington.edu" "old-secret") amy_registered).2
    = (inr (MessageProfile "Students logged in" (Profile.mk "Amy" "")),
       amy_registered).
Proof. split_and!; vm_compute; reflexivity. Qed.

(** * Further properties of the endpoints *)

(** ** More on [removeFirst] *)

Lemma removeFirst_app_fresh (x : string) (l : list string) :
  x ∉ l → removeFirst x (l ++ [x]) = l.
Proof.
  induction l as [|y l IH]; simpl.
  - intros _. by rewrite decide_True.
  - intros [Hne Hl]%not_elem_of_cons. rewrite decide_False by done.
    by rewrite IH.
Qed.

Lemma removeFirst_middle (x : string) (l1 l2 : list string) :
  x ∉ l1 → removeFirst x (l1 ++ x :: l2) = l1 ++ l2.
Proof.
  induction l1 as [|y l1 IH]; simpl.
  - intros _. by rewrite decide_True.
  - intros [Hne Hl]%not_elem_of_cons. rewrite decide_False by done.
    by rewrite IH.
Qed.

Lemma removeFirst_keeps_other (x y : string) (l : list string) :
  x ≠ y → x ∈ l → x ∈ removeFirst y l.
Proof.
  intros Hne. induction l as [|z l IH]; simpl; [done|].
  intros [->|Hin]%elem_of_cons.
  - rewrite decide_False by done. left.
  - destruct (decide (y = z)); [done|]. right. auto.
Qed.

Lemma set_activities_same st : set_activities (activities st) st = st.
Proof. by destruct st. Qed.

(** The account endpoints do not write to [activities]. *)
Lemma handle_activities_frame r st :
  is_activity_request r = false → activities (handle r st).2 = activities st.
Proof.
  destruct r; simpl; try done; intros _;
    unfold register_user, login_user, get_profile, update_profile, read_profile,
      change_password, UserLogin_getattr;
    unfold_M; repeat case_match; simplify_eq; done.
Qed.

(** ** Reading a profile *)

(** X1. In a reachable state, [get_profile] refuses a collection other than
    "students" and "clubs" with 400 "Invalid user type", an email that is
    not stored in the collection with 404 "User not found", and otherwise
    answers with the stored profile; the stores are unchanged in all three
    cases. *)
Theorem get_profile_spec st user_type email :
  reachable st →
  (¬ valid_collection user_type →
   get_profile user_type email st
   = (inl (HTTPException 400 "Invalid user type"), st))
  ∧ (valid_collection user_type →
     find_user st user_type email = None →
     get_profile user_type email st
     = (inl (HTTPException 404 "User not found"), st))
  ∧ (∀ u, find_user st user_type email = Some u →
       get_profile user_type email st
       = (inr (ProfileOnly (UserRecord.profile u)), st)).
Proof.
  intros Hreach. unfold get_profile. unfold_M. split_and!.
  - intros Hinv. by rewrite (reachable_no_collection st user_type Hreach Hinv).
  - intros Hvalid Hnone.
    destruct (reachable_collection st user_type Hreach Hvalid) as [coll Hc].
    rewrite (find_user_in _ _ _ _ Hc) in Hnone. by rewrite Hc, Hnone.
  - intros u (coll & Hc & Hu)%find_user_Some. by rewrite Hc, Hu.
Qed.

Lemma get_profile_spec_witness :
  get_profile "teachers" "amy@mergington.edu" amy_registered
  = (inl (HTTPException 400 "Invalid user type"), amy_registered)
  ∧ get_profile "clubs" "amy@mergington.edu" amy_registered
    = (inl (HTTPException 404 "User not found"), amy_registered)
  ∧ get_profile "students" "amy@mergington.edu" amy_registered
    = (inr (ProfileOnly (Profile.mk "Amy" "")), amy_registered).
Proof.
  assert (reachable amy_registered) as Hreach
    by exact (ex_intro _ [PostRegister "students" amy] eq_refl).
  split_and!.
  - apply (proj1 (get_profile_spec amy_registered "teachers"
                    "amy@mergington.edu" Hreach)).
    unfold valid_collection. intros [H|H]; discriminate H.
  - apply (proj1 (proj2 (get_profile_spec amy_registered "clubs"
                           "amy@mergington.edu" Hreach))).
    + right. reflexivity.
    + vm_compute. reflexivity.
  - apply (proj2 (proj2 (get_profile_spec amy_registered "students"
                           "amy@mergington.edu" Hreach))
             (UserRecord.mk "Amy" "old-secret" (Profile.mk "Amy" ""))).
    vm_compute. reflexivity.
Defined.

(** ** Signing up and unregistering, composed *)

(** X2. A signup that succeeds, followed by the unregistration of the same
    email from the same activity, brings both stores back to exactly the
    state before the signup. *)
Theorem signup_then_unregister st activity_name a email :
  activities st !! activity_name = Some a →
  email ∉ Activity.participants a →
  ∃ st1,
    signup_for_activity activity_name email st
    = (inr (Message ("Signed up " +:+ email +:+ " for " +:+ activity_name)), st1)
    ∧ unregister_from_activity activity_name email st1
      = (inr (Message ("Unregistered " +:+ email +:+ " from " +:+ activity_name)),
         st).
Proof.
  intros Ha Hout. eexists. split; [by apply signup_fresh|].
  erewrite unregister_present; cycle 1.
  { simpl. apply lookup_insert_eq. }
  { simpl. apply elem_of_app. right. left. }
  f_equal. simpl. rewrite insert_insert_eq, removeFirst_app_fresh by done.
  unfold Activity.set_participants, set_activities. simpl.
  destruct a as [d s m ps], st as [us acts]. simpl in *.
  by rewrite insert_id.
Qed.

Lemma signup_then_unregister_witness :
  ∃ st1,
    signup_for_activity "Chess Club" "new@m.edu" initial_state
    = (inr (Message "Signed up new@m.edu for Chess Club"), st1)
    ∧ unregister_from_activity "Chess Club" "new@m.edu" st1
      = (inr (Message "Unregistered new@m.edu from Chess Club"), initial_state).
Proof.
  apply (signup_then_unregister initial_state "Chess Club"
           (Activity.mk "Learn strategies and compete in chess tournaments"
              "Fridays, 3:30 PM - 5:00 PM" 12
              ["michael@mergington.edu"; "daniel@mergington.edu"])
           "new@m.edu").
  - vm_compute. reflexivity.
  - apply (bool_decide_unpack _). vm_compute. exact I.
Defined.

(** X3. In a reachable state, unregistering a participant and signing the
    same email up again does not restore the list: the email comes back at
    the end, the other participants keep their order, and nothing else
    changes. *)
Theorem unregister_then_signup st activity_name a email before after :
  reachable st →
  activities st !! activity_name = Some a →
  Activity.participants a = before ++ email :: after →
  ∃ st1 st2,
    unregister_from_activity activity_name email st
    = (inr (Message ("Unregistered " +:+ email +:+ " from " +:+ activity_name)),
       st1)
    ∧ signup_for_activity activity_name email st1
      = (inr (Message ("Signed up " +:+ email +:+ " for " +:+ activity_name)),
         st2)
    ∧ activities st2 !! activity_name
      = Some (Activity.mk (Activity.description a) (Activity.schedule a)
                (Activity.max_participants a) (before ++ after ++ [email]))
    ∧ (∀ other, other ≠ activity_name →
         activities st2 !! other = activities st !! other)
    ∧ users st2 = users st.
Proof.
  intros Hreach Ha Hps.
  assert (NoDup (Activity.participants a)) as Hnd
    by apply (reachable_roster_wf st Hreach activity_name a Ha).
  rewrite Hps in Hnd. apply NoDup_app in Hnd as (_ & Hb & [Haf _]%NoDup_cons).
  assert (email ∉ before) as Hbefore.
  { intros Hin. apply (Hb _ Hin). left. }
  eexists _, _. split.
  { apply (unregister_present _ _ _ a Ha). rewrite Hps.
    apply elem_of_app. right. left. }
  rewrite Hps, removeFirst_middle by done. split.
  { eapply signup_fresh; [simpl; apply lookup_insert_eq|]. simpl.
    rewrite elem_of_app. by intros [?|?]. }
  simpl. split_and!.
  - rewrite lookup_insert_eq. by rewrite <- app_assoc.
  - intros other Hne. by rewrite !lookup_insert_ne.
  - done.
Qed.

Lemma unregister_then_signup_witness :
  ∃ st1 st2,
    unregister_from_activity "Chess Club" "michael@mergington.edu" initial_state
    = (inr (Message "Unregistered michael@mergington.edu from Chess Club"), st1)
    ∧ signup_for_activity "Chess Club" "michael@mergington.edu" st1
      = (inr (Message "Signed up michael@mergington.edu for Chess Club"), st2)
    ∧ activities st2 !! "Chess Club"
      = Some (Activity.mk "Learn strategies and compete in chess tournaments"
                "Fridays, 3:30 PM - 5:00 PM" 12
                ([] ++ ["daniel@mergington.edu"] ++ ["michael@mergington.edu"]))
    ∧ (∀ other, other ≠ "Chess Club" →
         activities st2 !! other = activities initial_state !! other)
    ∧ users st2 = users initial_state.
Proof.
  apply (unregister_then_signup initial_state "Chess Club"
           (Activity.mk "Learn strategies and compete in chess tournaments"
              "Fridays, 3:30 PM - 5:00 PM" 12
              ["michael@mergington.edu"; "daniel@mergington.edu"])
           "michael@mergington.edu" [] ["daniel@mergington.edu"]).
  - exact (ex_intro _ [] eq_refl).
  - vm_compute. reflexivity.
  - reflexivity.
Defined.

(** A participant stays on the list under every request except the
    unregistration of that very email from that very activity. *)
Lemma handle_member_persists r st activity_name a email :
  activities st !! activity_name = Some a →
  email ∈ Activity.participants a →
  r ≠ DeleteUnregister activity_name email →
  ∃ a', activities (handle r st).2 !! activity_name = Some a'
        ∧ email ∈ Activity.participants a'.
Proof.
  intros Ha Hin Hr.
  destruct (is_activity_request r) eqn:Hkind;
    [|rewrite handle_activities_frame by done; eauto].
  destruct r as [| | | | | | |m e|m e]; try done; simpl; [eauto|eauto| |].
  - destruct (activities st !! m) as [b|] eqn:Hm;
      [|rewrite signup_unknown_activity by done; eauto].
    destruct (decide (e ∈ Activity.participants b)) as [He|He];
      [erewrite signup_present by done; eauto|].
    erewrite signup_fresh by done. simpl.
    destruct (decide (m = activity_name)) as [->|Hne];
      [|rewrite lookup_insert_ne by done; eauto].
    rewrite lookup_insert_eq. simplify_eq. eexists. split; [done|]. simpl.
    apply elem_of_app. by left.
  - destruct (activities st !! m) as [b|] eqn:Hm;
      [|rewrite unregister_unknown_activity by done; eauto].
    destruct (decide (e ∈ Activity.participants b)) as [He|He];
      [|erewrite unregister_absent by done; eauto].
    erewrite unregister_present by done. simpl.
    destruct (decide (m = activity_name)) as [->|Hne];
      [|rewrite lookup_insert_ne by done; eauto].
    rewrite lookup_insert_eq. simplify_eq. eexists. split; [done|]. simpl.
    apply removeFirst_keeps_other; [|done]. intros ->. done.
Qed.

(** X4. Once a signup has succeeded, signing the same email up for the same
    activity is refused with 400 "Student is already signed up" after any
    sequence of requests that does not unregister that email from that
    activity. *)
Theorem signed_up_until_unregistered st activity_name email resp st1 rs :
  signup_for_activity activity_name email st = (inr resp, st1) →
  Forall (λ r, r ≠ DeleteUnregister activity_name email) rs →
  signup_for_activity activity_name email (run rs st1)
  = (inl (HTTPException 400 "Student is already signed up"), run rs st1).
Proof.
  intros Hsign Hrs.
  assert (∃ a1, activities st1 !! activity_name = Some a1
                ∧ email ∈ Activity.participants a1) as (a1 & Ha1 & Hin1).
  { destruct (activities st !! activity_name) as [a|] eqn:Ha;
      [|by rewrite signup_unknown_activity in Hsign].
    destruct (decide (email ∈ Activity.participants a)) as [He|He];
      [by erewrite signup_present in Hsign|].
    erewrite signup_fresh in Hsign by done. injection Hsign as _ <-.
    eexists. split; [simpl; apply lookup_insert_eq|]. simpl.
    apply elem_of_app. right. left. }
  clear Hsign. revert st1 a1 Ha1 Hin1.
  induction Hrs as [|r rs Hr _ IH]; intros st1 a1 Ha1 Hin1; simpl.
  - by eapply signup_present.
  - destruct (handle_member_persists r st1 _ _ _ Ha1 Hin1 Hr) as (a2 & Ha2 & Hin2).
    by eapply IH.
Qed.

Lemma signed_up_until_unregistered_witness :
  signup_for_activity "Chess Club" "new@m.edu"
    (run [DeleteUnregister "Chess Club" "daniel@mergington.edu";
          DeleteUnregister "Math Club" "new@m.edu";
          PostSignup "Chess Club" "other@m.edu"]
       (signup_for_activity "Chess Club" "new@m.edu" initial_state).2)
  = (inl (HTTPException 400 "Student is already signed up"),
     run [DeleteUnregister "Chess Club" "daniel@mergington.edu";
          DeleteUnregister "Math Club" "new@m.edu";
          PostSignup "Chess Club" "other@m.edu"]
       (signup_for_activity "Chess Club" "new@m.edu" initial_state).2).
Proof.
  apply (signed_up_until_unregistered initial_state "Chess Club" "new@m.edu"
           (Message "Signed up new@m.edu for Chess Club")).
  - vm_compute. reflexivity.
  - repeat constructor; discriminate.
Defined.

(** ** What never changes *)

(** X5. Whatever requests are served from the seed, the roster has exactly
    the activities of the seed, each with the description, schedule and
    capacity it was seeded with. *)
Theorem roster_is_static rs activity_name :
  activity_static <$> activities (run rs initial_state) !! activity_name
  = activity_static <$> activities initial_state !! activity_name.
Proof.
  revert activity_name.
  apply (run_invariant
           (λ st, ∀ n, activity_static <$> activities st !! n
                       = activity_static <$> activities initial_state !! n));
    [|done].
  intros r st IH n. rewrite <- IH.
  destruct (activities st !! n) as [a|] eqn:Ha.
  - destruct (handle_roster_change r st n a Ha) as (a' & -> & Hd & Hs & Hm & _).
    simpl. unfold activity_static. by rewrite Hd, Hs, Hm.
  - assert (activities (handle r st).2 !! n = None) as ->; [|done].
    apply eq_None_not_Some. rewrite handle_activities_keys, Ha.
    by intros [? ?].
Qed.

(** X6. A registered user is never removed and its password never changes:
    after a successful registration and any sequence of further requests,
    the user is still stored with the registration password, and a login
    with the registration email and password succeeds. *)
Theorem registered_credentials_keep_working st user_type user resp st1 rs :
  register_user user_type user st = (inr resp, st1) →
  ∃ u,
    find_user (run rs st1) user_type (UserRegister.email user) = Some u
    ∧ UserRecord.password u = UserRegister.password user
    ∧ login_user user_type
        (UserLogin.mk (UserRegister.email user) (UserRegister.password user))
        (run rs st1)
      = (inr (MessageProfile (title user_type +:+ " logged in")
                (UserRecord.profile u)), run rs st1).
Proof.
  intros Hreg%register_success.
  destruct (run_user_persists rs st1 _ _ _ Hreg) as (u & Hu & _ & Hpw).
  exists u. split; [done|]. split; [done|].
  apply find_user_Some in Hu as (coll & Hc & Hu).
  by eapply login_accepted.
Qed.

Lemma registered_credentials_keep_working_witness :
  ∃ u,
    find_user
      (run [PutChangePassword "students" "amy@mergington.edu"
              (UserLogin.mk "amy@mergington.edu" "old-secret");
            PutProfile "students" "amy@mergington.edu"
              (UserProfile.mk (Some "Amelia") None)]
         amy_registered)
      "students" "amy@mergington.edu" = Some u
    ∧ UserRecord.password u = "old-secret"
    ∧ login_user "students" (UserLogin.mk "amy@mergington.edu" "old-secret")
        (run [PutChangePassword "students" "amy@mergington.edu"
                (UserLogin.mk "amy@mergington.edu" "old-secret");
              PutProfile "students" "amy@mergington.edu"
                (UserProfile.mk (Some "Amelia") None)]
           amy_registered)
      = (inr (MessageProfile "Students logged in" (UserRecord.profile u)),
         run [PutChangePassword "students" "amy@mergington.edu"
                (UserLogin.mk "amy@mergington.edu" "old-secret");
              PutProfile "students" "amy@mergington.edu"
                (UserProfile.mk (Some "Amelia") None)]
           amy_registered).
Proof.
  apply (registered_credentials_keep_working initial_state "students" amy
           (Message "Students registered successfully") amy_registered).
  vm_compute. reflexivity.
Defined.

(** X7. The two stores are independent: a request to an activity endpoint
    leaves [users] as it is, and a request to an account endpoint leaves
    [activities] as it is, whatever the answer. *)
Theorem stores_are_independent r st :
  if is_activity_request r
  then users (handle r st).2 = users st
  else activities (handle r st).2 = activities st.
Proof.
  destruct (is_activity_request r) eqn:Hkind.
  - destruct r; try done;
      match goal with
      | |- users (handle ?r _).2 = _ => exact (handle_users_frame r st)
      end.
  - by apply handle_activities_frame.
Qed.

(** X8. Logging in, reading a profile, listing the activities and the root
    redirect never write to either store, whatever they answer; the listing
    answers with the roster as it stands. *)
Theorem read_only_endpoints st :
  (∀ user_type creds, (login_user user_type creds st).2 = st)
  ∧ (∀ user_type email, (get_profile user_type email st).2 = st)
  ∧ get_activities st = (inr (Roster (activities st)), st)
  ∧ root st = (inr (Redirect "/static/index.html"), st).
Proof.
  split_and!; [| |done|done].
  - intros user_type creds. unfold login_user. unfold_M.
    by repeat case_match.
  - intros user_type email. unfold get_profile. unfold_M.
    by repeat case_match.
Qed.

(** ** Profile updates, composed *)

Lemma merged_profile_twice profile p :
  merged_profile profile (merged_profile profile p) = merged_profile profile p.
Proof. by destruct profile as [[n|] [b|]], p. Qed.

Lemma get_profile_found st user_type email u :
  find_user st user_type email = Some u →
  get_profile user_type email st
  = (inr (ProfileOnly (UserRecord.profile u)), st).
Proof.
  intros (coll & Hc & Hu)%find_user_Some. unfold get_profile. unfold_M.
  by rewrite Hc, Hu.
Qed.

(** X9. A profile update is idempotent: sending the same body again gives
    the same answer and leaves the stores as the first update left them. *)
Theorem update_profile_idempotent st user_type email profile resp st1 :
  update_profile user_type email profile st = (inr resp, st1) →
  update_profile user_type email profile st1 = (inr resp, st1).
Proof.
  destruct (users st !! user_type) as [coll|] eqn:Hc;
    [|by rewrite update_invalid_type].
  destruct (coll !! email) as [u|] eqn:Hu;
    [|by erewrite update_unknown_email].
  erewrite update_found by done. intros [= <- <-].
  erewrite update_found; cycle 1.
  { simpl. apply lookup_insert_eq. }
  { apply lookup_insert_eq. }
  simpl. rewrite merged_profile_twice. f_equal.
  unfold set_users. simpl. by rewrite !insert_insert_eq.
Qed.

Lemma update_profile_idempotent_witness :
  update_profile "students" "amy@mergington.edu"
    (UserProfile.mk (Some "Amelia") None)
    (update_profile "students" "amy@mergington.edu"
       (UserProfile.mk (Some "Amelia") None) amy_registered).2
  = (inr (MessageProfile "Profile updated" (Profile.mk "Amelia" "")),
     (update_profile "students" "amy@mergington.edu"
        (UserProfile.mk (Some "Amelia") None) amy_registered).2).
Proof.
  apply (update_profile_idempotent amy_registered).
  vm_compute. reflexivity.
Defined.

(** X10. A profile update whose body gives neither a name nor a bio never
    changes the stores; for a stored user it answers with the profile as it
    is. *)
Theorem update_profile_empty_body st user_type email :
  (update_profile user_type email (UserProfile.mk None None) st).2 = st
  ∧ (∀ u, find_user st user_type email = Some u →
       update_profile user_type email (UserProfile.mk None None) st
       = (inr (MessageProfile "Profile updated" (UserRecord.profile u)), st)).
Proof.
  assert (∀ u, find_user st user_type email = Some u →
            update_profile user_type email (UserProfile.mk None None) st
            = (inr (MessageProfile "Profile updated" (UserRecord.profile u)), st))
    as Hfound.
  { intros u (coll & Hc & Hu)%find_user_Some.
    erewrite update_found by done. unfold merged_profile. simpl.
    destruct u as [n pw [pn pb]]. simpl. f_equal.
    unfold UserRecord.set_profile. simpl.
    rewrite (insert_id coll), (insert_id (users st)) by done.
    apply set_users_same. }
  split; [|done].
  destruct (find_user st user_type email) as [u|] eqn:Hu;
    [by rewrite (Hfound u)|].
  destruct (users st !! user_type) as [coll|] eqn:Hc;
    [|by rewrite update_invalid_type].
  rewrite (find_user_in _ _ _ _ Hc) in Hu. by erewrite update_unknown_email.
Qed.

Lemma update_profile_empty_body_witness :
  (update_profile "students" "amy@mergington.edu" (UserProfile.mk None None)
     amy_registered).2 = amy_registered
  ∧ update_profile "students" "amy@mergington.edu" (UserProfile.mk None None)
      amy_registered
    = (inr (MessageProfile "Profile updated" (Profile.mk "Amy" "")),
       amy_registered).
Proof.
  split.
  - apply (proj1 (update_profile_empty_body amy_registered "students"
                    "amy@mergington.edu")).
  - apply (proj2 (update_profile_empty_body amy_registered "students"
                    "amy@mergington.edu")
             (UserRecord.mk "Amy" "old-secret" (Profile.mk "Amy" ""))).
    vm_compute. reflexivity.
Defined.

(** X11. What a profile update answers is what is read back afterwards: for
    a stored user, the profile returned by [update_profile] is the one that
    [get_profile] returns next and the one that a login with the stored
    password returns next. *)
Theorem update_then_read_back st user_type email u profile :
  find_user st user_type email = Some u →
  ∃ p st1,
    update_profile user_type email profile st
    = (inr (MessageProfile "Profile updated" p), st1)
    ∧ get_profile user_type email st1 = (inr (ProfileOnly p), st1)
    ∧ login_user user_type (UserLogin.mk email (UserRecord.password u)) st1
      = (inr (MessageProfile (title user_type +:+ " logged in") p), st1).
Proof.
  intros Hu.
  destruct (update_stored_user st user_type email u profile Hu)
    as (p & st1 & Hrun & Hrec & _).
  exists p, st1. split; [done|]. split.
  - by rewrite (get_profile_found _ _ _ _ Hrec).
  - apply find_user_Some in Hrec as (coll1 & Hc1 & Hu1).
    exact (login_accepted st1 user_type
             (UserLogin.mk email (UserRecord.password u)) coll1 _ Hc1 Hu1
             eq_refl).
Qed.

Lemma update_then_read_back_witness :
  ∃ p st1,
    update_profile "students" "amy@mergington.edu"
      (UserProfile.mk (Some "Amelia") (Some "Chess player")) amy_registered
    = (inr (MessageProfile "Profile updated" p), st1)
    ∧ get_profile "students" "amy@mergington.edu" st1 = (inr (ProfileOnly p), st1)
    ∧ login_user "students" (UserLogin.mk "amy@mergington.edu" "old-secret") st1
      = (inr (MessageProfile "Students logged in" p), st1).
Proof.
  apply (update_then_read_back amy_registered "students" "amy@mergington.edu"
           (UserRecord.mk "Amy" "old-secret" (Profile.mk "Amy" ""))).
  vm_compute. reflexivity.
Defined.

(** ** Error paths of the account endpoints *)

(** X12. In a reachable state, each of the five account endpoints refuses a
    collection name other than "students" and "clubs" with 400 "Invalid
    user type", before it looks at the email or the body, and leaves the
    stores unchanged. *)
Theorem invalid_collection_refused st user_type :
  reachable st →
  ¬ valid_collection user_type →
  (∀ user, register_user user_type user st
           = (inl (HTTPException 400 "Invalid user type"), st))
  ∧ (∀ creds, login_user user_type creds st
              = (inl (HTTPException 400 "Invalid user type"), st))
  ∧ (∀ email, get_profile user_type email st
              = (inl (HTTPException 400 "Invalid user type"), st))
  ∧ (∀ email profile, update_profile user_type email profile st
                      = (inl (HTTPException 400 "Invalid user type"), st))
  ∧ (∀ email data, change_password user_type email data st
                   = (inl (HTTPException 400 "Invalid user type"), st)).
Proof.
  intros Hreach Hinv.
  pose proof (reachable_no_collection st user_type Hreach Hinv) as Hnone.
  split_and!; intros.
  - by apply register_invalid_type.
  - by apply login_invalid_type.
  - unfold get_profile. unfold_M. by rewrite Hnone.
  - by apply update_invalid_type.
  - by apply change_password_invalid_type.
Qed.

Lemma invalid_collection_refused_witness :
  register_user "Students" amy amy_registered
  = (inl (HTTPException 400 "Invalid user type"), amy_registered)
  ∧ login_user "Students" (UserLogin.mk "amy@mergington.edu" "old-secret")
      amy_registered
    = (inl (HTTPException 400 "Invalid user type"), amy_registered)
  ∧ get_profile "Students" "amy@mergington.edu" amy_registered
    = (inl (HTTPException 400 "Invalid user type"), amy_registered)
  ∧ update_profile "Students" "amy@mergington.edu"
      (UserProfile.mk (Some "Amelia") None) amy_registered
    = (inl (HTTPException 400 "Invalid user type"), amy_registered)
  ∧ change_password "Students" "amy@mergington.edu"
      (UserLogin.mk "amy@mergington.edu" "old-secret") amy_registered
    = (inl (HTTPException 400 "Invalid user type"), amy_registered).
Proof.
  destruct (invalid_collection_refused amy_registered "Students")
    as (Hreg & Hlogin & Hget & Hupd & Hchg).
  - exact (ex_intro _ [PostRegister "students" amy] eq_refl).
  - unfold valid_collection. intros [H|H]; discriminate H.
  - split; [apply Hreg|]. split; [apply Hlogin|]. split; [apply Hget|].
    split; [apply Hupd|apply Hchg].
Defined.

(** X13. In a reachable state and for a collection "students" or "clubs",
    updating the profile or changing the password of an email that is not
    stored in the collection is refused with 404 "User not found", whatever
    the body holds, and the stores are unchanged. *)
Theorem unknown_user_refused st user_type email :
  reachable st →
  valid_collection user_type →
  find_user st user_type email = None →
  (∀ profile, update_profile user_type email profile st
              = (inl (HTTPException 404 "User not found"), st))
  ∧ (∀ data, change_password user_type email data st
             = (inl (HTTPException 404 "User not found"), st)).
Proof.
  intros Hreach Hvalid Hnone.
  destruct (reachable_collection st user_type Hreach Hvalid) as [coll Hc].
  rewrite (find_user_in _ _ _ _ Hc) in Hnone.
  split; intros.
  - by eapply update_unknown_email.
  - by eapply change_password_unknown_email.
Qed.

Lemma unknown_user_refused_witness :
  update_profile "clubs" "amy@mergington.edu"
    (UserProfile.mk (Some "Amelia") None) amy_registered
  = (inl (HTTPException 404 "User not found"), amy_registered)
  ∧ change_password "clubs" "amy@mergington.edu"
      (UserLogin.mk "amy@mergington.edu" "old-secret") amy_registered
    = (inl (HTTPException 404 "User not found"), amy_registered).
Proof.
  destruct (unknown_user_refused amy_registered "clubs" "amy@mergington.edu")
    as (Hupd & Hchg).
  - exact (ex_intro _ [PostRegister "students" amy] eq_refl).
  - right. reflexivity.
  - vm_compute. reflexivity.
  - split; [apply Hupd|apply Hchg].
Defined.

(** ** No account is needed on the roster *)

(** X14. Signing up and unregistering read and write the roster only: in two
    states with the same roster, whatever their users, the same request
    gets the same answer and leaves the same roster.  In particular an
    email need not belong to a registered user. *)
Theorem roster_requests_ignore_users st st' activity_name email :
  activities st = activities st' →
  (signup_for_activity activity_name email st).1
  = (signup_for_activity activity_name email st').1
  ∧ activities (signup_for_activity activity_name email st).2
    = activities (signup_for_activity activity_name email st').2
  ∧ (unregister_from_activity activity_name email st).1
    = (unregister_from_activity activity_name email st').1
  ∧ activities (unregister_from_activity activity_name email st).2
    = activities (unregister_from_activity activity_name email st').2.
Proof.
  intros Heq. unfold signup_for_activity, unregister_from_activity. unfold_M.
  rewrite <- Heq.
  destruct (activities st !! activity_name) as [a|]; [|done].
  split_and!; repeat case_match; simpl; by rewrite <- ?Heq.
Qed.

Lemma roster_requests_ignore_users_witness :
  (signup_for_activity "Chess Club" "new@m.edu" initial_state).1
  = (signup_for_activity "Chess Club" "new@m.edu" amy_registered).1
  ∧ activities (signup_for_activity "Chess Club" "new@m.edu" initial_state).2
    = activities (signup_for_activity "Chess Club" "new@m.edu" amy_registered).2
  ∧ (unregister_from_activity "Chess Club" "new@m.edu" initial_state).1
    = (unregister_from_activity "Chess Club" "new@m.edu" amy_registered).1
  ∧ activities (unregister_from_activity "Chess Club" "new@m.edu" initial_state).2
    = activities
        (unregister_from_activity "Chess Club" "new@m.edu" amy_registered).2.
Proof.
  apply (roster_requests_ignore_users initial_state amy_registered).
  vm_compute. reflexivity.
Defined.

(** ** The collections *)

(** X15. Whatever requests are served from the initial stores, [users] has
    exactly the two collections "students" and "clubs": no endpoint adds or
    removes a collection. *)
Theorem collections_are_fixed rs user_type :
  is_Some (users (run rs initial_state) !! user_type)
  ↔ user_type = "students" ∨ user_type = "clubs".
Proof.
  apply (reachable_users_wf (run rs initial_state)). by exists rs.
Qed.
